(** * gen.go: generator of the IANA constants and tables of package ipv4

    A shallow embedding of [src/code.google.com/p/go.net/ipv4/gen.go] and
    the properties of its canonicalizers, emitters and driver.

    Go strings are byte sequences: they are modelled by [string], whose
    characters are the 256 values of [ascii].  Go's [int] is modelled by
    [Z], with the platform's width [IntSize] made explicit where the code
    depends on it ([strconv.Atoi]).  The writer passed to the parse
    functions is the text written so far; every [fmt.Fprintf] appends to
    it. *)

From Stdlib Require Import ZArith NArith Ascii String DecimalString Lia.
From stdpp Require Import base list strings.

Local Open Scope Z_scope.

(** ** Bytes *)

Definition code (c : ascii) : N := N_of_ascii c.

(** The line feed, written ["\n"] in the Go source. *)
Definition LF : ascii := ascii_of_N 10.
Definition nl : string := String LF "".

(** The double quote character. *)
Definition DQ : ascii := ascii_of_N 34.

(** [utf8.RuneSelf]: bytes below it are single-byte runes. *)
Definition RuneSelf : N := 128.

Fixpoint isASCII (s : string) : bool :=
  match s with
  | EmptyString => true
  | String c t => (code c <? RuneSelf)%N && isASCII t
  end.

(** ** Package strings *)

(** [strings.HasPrefix(s, prefix)] *)
Fixpoint HasPrefix (s prefix : string) : bool :=
  match prefix, s with
  | EmptyString, _ => true
  | String _ _, EmptyString => false
  | String p ps, String c cs => Ascii.eqb p c && HasPrefix cs ps
  end.

(** [strings.Contains(s, substr)]: [substr] starts at some offset of [s]. *)
Fixpoint Contains (s substr : string) : bool :=
  HasPrefix s substr ||
  match s with
  | EmptyString => false
  | String _ t => Contains t substr
  end.

(** [strings.Split(s, sep)] for a one-byte separator, which is how both
    calls of the program use it ([sep] is ["\n"]).  The result is never
    empty: a string without separator is returned as its only element. *)
Fixpoint Split (s : string) (sep : ascii) : list string :=
  match s with
  | EmptyString => [EmptyString]
  | String c t =>
      if Ascii.eqb c sep then EmptyString :: Split t sep
      else match Split t sep with
           | w :: ws => String c w :: ws
           | [] => [String c EmptyString]
           end
  end.

(** [strings.Join(elems, sep)] *)
Fixpoint Join (elems : list string) (sep : string) : string :=
  match elems with
  | [] => EmptyString
  | [x] => x
  | x :: rest => x +:+ sep +:+ Join rest sep
  end.

(** [unicode.IsSpace] on the single-byte runes: tab, line feed, vertical
    tab, form feed, carriage return and space. *)
Definition isSpace1 (c : ascii) : bool :=
  let n := code c in ((9 <=? n) && (n <=? 13) || (n =? 32))%N.

(** The two-byte UTF-8 encodings of white space: U+0085 and U+00A0. *)
Definition isSpace2 (c1 c2 : ascii) : bool :=
  ((code c1 =? 194) && ((code c2 =? 133) || (code c2 =? 160)))%N.

(** The three-byte UTF-8 encodings of white space: U+1680, U+2000 to
    U+200A, U+2028, U+2029, U+202F, U+205F and U+3000. *)
Definition isSpace3 (c1 c2 c3 : ascii) : bool :=
  let a := code c1 in let b := code c2 in let c := code c3 in
  ((a =? 225) && (b =? 154) && (c =? 128)
   || (a =? 226) && (b =? 128) &&
        ((128 <=? c) && (c <=? 138) || (c =? 168) || (c =? 169) || (c =? 175))
   || (a =? 226) && (b =? 129) && (c =? 159)
   || (a =? 227) && (b =? 128) && (c =? 128))%N.

(** [strings.TrimLeftFunc(s, unicode.IsSpace)]: the leading rune is decoded
    and dropped while it is white space.  Every white-space rune has one
    well-formed encoding, so the decoder returns it exactly when the string
    starts with that encoding. *)
Fixpoint trimLeftSpace (s : string) : string :=
  match s with
  | EmptyString => EmptyString
  | String c1 t1 =>
      if isSpace1 c1 then trimLeftSpace t1
      else match t1 with
           | EmptyString => s
           | String c2 t2 =>
               if isSpace2 c1 c2 then trimLeftSpace t2
               else match t2 with
                    | EmptyString => s
                    | String c3 t3 =>
                        if isSpace3 c1 c2 c3 then trimLeftSpace t3 else s
                    end
           end
  end.

(** The same scan on the reversed string, for the trailing runes: the bytes
    of an encoding arrive last byte first. *)
Fixpoint trimLeftSpaceRev (s : string) : string :=
  match s with
  | EmptyString => EmptyString
  | String c1 t1 =>
      if isSpace1 c1 then trimLeftSpaceRev t1
      else match t1 with
           | EmptyString => s
           | String c2 t2 =>
               if isSpace2 c2 c1 then trimLeftSpaceRev t2
               else match t2 with
                    | EmptyString => s
                    | String c3 t3 =>
                        if isSpace3 c3 c2 c1 then trimLeftSpaceRev t3 else s
                    end
           end
  end.

Definition trimRightSpace (s : string) : string :=
  String.rev (trimLeftSpaceRev (String.rev s)).

(** [strings.TrimSpace(s)] *)
Definition TrimSpace (s : string) : string :=
  trimRightSpace (trimLeftSpace s).

(** Lower case of a single-byte rune. *)
Definition lowerByte (c : ascii) : ascii :=
  let n := code c in
  if ((65 <=? n) && (n <=? 90))%N then ascii_of_N (n + 32) else c.

Fixpoint lowerASCII (s : string) : string :=
  match s with
  | EmptyString => EmptyString
  | String c t => String (lowerByte c) (lowerASCII t)
  end.

(** [strings.NewReplacer(oldnew...).Replace(s)]: one pass over [s] from left
    to right; at each offset the first pair, in argument order, whose old
    string starts there is applied and the scan resumes after the matched
    text; a byte where no old string starts is copied.  The replacement
    text is never scanned again.  All old strings of the program's two
    replacers are non-empty, and the library's special case for an empty
    old string is not modelled. *)
Fixpoint lookup (oldnew : list (string * string)) (s : string)
  : option (string * string) :=
  match oldnew with
  | [] => None
  | (old, new) :: rest =>
      if HasPrefix s old then Some (old, new) else lookup rest s
  end.

(** [skip] counts the bytes of the current match that are still to be
    passed over. *)
Fixpoint replaceFrom (oldnew : list (string * string)) (skip : nat) (s : string)
  : string :=
  match s with
  | EmptyString => EmptyString
  | String c t =>
      match skip with
      | S k => replaceFrom oldnew k t
      | O =>
          match lookup oldnew s with
          | Some (old, new) =>
              new +:+ replaceFrom oldnew (Nat.pred (String.length old)) t
          | None => String c (replaceFrom oldnew O t)
          end
      end
  end.

Definition Replace (oldnew : list (string * string)) (s : string) : string :=
  replaceFrom oldnew O s.


(** [strings.ToLower(s)]: a string of single-byte runes is lowered byte by
    byte; any other string goes through [strings.Map(unicode.ToLower, s)],
    whose case tables are not part of this program and are taken as the
    parameter [mapToLower]. *)
Definition ToLower (mapToLower : string -> string) (s : string) : string :=
  if isASCII s then lowerASCII s else mapToLower s.

(** ** Package strconv *)

(** [strconv.IntSize], the width of [int] on the platform. *)
Inductive IntSize := Int32 | Int64.

Definition bits (sz : IntSize) : Z :=
  match sz with Int32 => 32 | Int64 => 64 end.

Definition maxInt (sz : IntSize) : Z := 2 ^ (bits sz - 1) - 1.
Definition minInt (sz : IntSize) : Z := - 2 ^ (bits sz - 1).

(** Conversion to a signed integer of [w] bits, by wrap-around. *)
Definition wrapSigned (w : Z) (z : Z) : Z :=
  (z + 2 ^ (w - 1)) mod 2 ^ w - 2 ^ (w - 1).

(** [NumError.Err] *)
Inductive NumError := ErrSyntax | ErrRange.

Definition isDigit (c : ascii) : bool :=
  ((48 <=? code c) && (code c <=? 57))%N.

Definition digitVal (c : ascii) : Z := Z.of_N (code c) - 48.

Definition maxUint64 : Z := 2 ^ 64 - 1.

(** The loop of [strconv.ParseUint(s, 10, bitSize)] over the bytes of [s],
    [n] being the unsigned 64-bit accumulator.  A range error returns at
    once, before the remaining bytes are looked at. *)
Fixpoint parseUintLoop (cutoff maxVal : Z) (s : string) (n : Z)
  : Z * option NumError :=
  match s with
  | EmptyString => (n, None)
  | String c t =>
      if negb (isDigit c) then (0, Some ErrSyntax)
      else if cutoff <=? n then (maxVal, Some ErrRange)
      else
        let n := n * 10 in
        let n1 := (n + digitVal c) mod 2 ^ 64 in
        if (n1 <? n) || (maxVal <? n1) then (maxVal, Some ErrRange)
        else parseUintLoop cutoff maxVal t n1
  end.

Definition ParseUint (s : string) (bitSize : Z) : Z * option NumError :=
  match s with
  | EmptyString => (0, Some ErrSyntax)
  | String _ _ => parseUintLoop (maxUint64 / 10 + 1) (2 ^ bitSize - 1) s 0
  end.

(** [strconv.ParseInt(s, 10, bitSize)]: an optional sign, then
    [ParseUint]; on a range error the result is the integer of largest
    magnitude of that sign. *)
Definition ParseInt (s : string) (bitSize : Z) : Z * option NumError :=
  match s with
  | EmptyString => (0, Some ErrSyntax)
  | String c t =>
      let neg := Ascii.eqb c "-" in
      let s' := if Ascii.eqb c "+" || neg then t else s in
      match ParseUint s' bitSize with
      | (_, Some ErrSyntax) => (0, Some ErrSyntax)
      | (un, _) =>
          let cutoff := 2 ^ (bitSize - 1) in
          if negb neg && (cutoff <=? un) then (cutoff - 1, Some ErrRange)
          else if neg && (cutoff <? un) then (- cutoff, Some ErrRange)
          else
            let n := wrapSigned 64 un in
            (if neg then wrapSigned 64 (- n) else n, None)
      end
  end.

(** [strconv.Atoi(s)], which is [ParseInt(s, 10, 0)] converted to [int]. *)
Definition Atoi (sz : IntSize) (s : string) : Z * option NumError :=
  let (i64, err) := ParseInt s (bits sz) in (wrapSigned (bits sz) i64, err).

(** [strconv.Itoa], the text that the verbs [%d] and [%v] print for an
    [int]. *)
Definition itoa (z : Z) : string := NilZero.string_of_int (Z.to_int z).

(** [lowerhex] of [strconv]. *)
Definition hexDigit (n : N) : ascii :=
  if (n <? 10)%N then ascii_of_N (48 + n) else ascii_of_N (87 + n).

(** How [strconv.Quote] writes a single-byte rune. *)
Definition quoteByte (c : ascii) : string :=
  let n := code c in
  if ((n =? 34) || (n =? 92))%N then String "\" (String c EmptyString)
  else if ((32 <=? n) && (n <? 127))%N then String c EmptyString
  else if (n =? 7)%N then "\a"
  else if (n =? 8)%N then "\b"
  else if (n =? 12)%N then "\f"
  else if (n =? 10)%N then "\n"
  else if (n =? 13)%N then "\r"
  else if (n =? 9)%N then "\t"
  else if (n =? 11)%N then "\v"
  else String "\" (String "x" (String (hexDigit (n / 16))
                                 (String (hexDigit (n mod 16)) EmptyString))).

Fixpoint quoteASCII (s : string) : string :=
  match s with
  | EmptyString => EmptyString
  | String c t => quoteByte c +:+ quoteASCII t
  end.

(** [strconv.Quote(s)], the text that the verb [%q] prints for a string.
    A string with a multi-byte rune needs [unicode.IsPrint], whose tables
    are not part of this program: it is quoted by the parameter
    [quoteRunes]. *)
Definition Quote (quoteRunes : string -> string) (s : string) : string :=
  if isASCII s then String DQ (quoteASCII s +:+ String DQ EmptyString)
  else quoteRunes s.

(** ** The data of the program *)

(** Element of [icmpv4Parameters.Registries[_].Records]. *)
Record icmpv4Record := {
  rec_Value : string;
  rec_Descr : string
}.

(** Element of [icmpv4Parameters.Registries]. *)
Record icmpv4Registry := {
  reg_Title : string;
  reg_Records : list icmpv4Record
}.

(** [type icmpv4Parameters struct]; the field [XMLName], which the
    program never reads, is left out. *)
Record icmpv4Parameters := {
  icp_Title : string;
  icp_Updated : string;
  icp_Registries : list icmpv4Registry
}.

(** [type canonICMPv4ParamRecord struct] *)
Record canonICMPv4ParamRecord := {
  OrigDescr : string;
  Descr : string;
  Value : Z
}.

(** Element of [protocolNumbers.Records]. *)
Record protocolRecord := {
  pr_Value : string;
  pr_Name : string;
  pr_Descr : string
}.

(** [type protocolNumbers struct], without [XMLName]. *)
Record protocolNumbers := {
  pn_Title : string;
  pn_Updated : string;
  pn_RegTitle : string;
  pn_Note : string;
  pn_Records : list protocolRecord
}.

(** [type canonProtocolRecord struct] *)
Record canonProtocolRecord := {
  cp_OrigName : string;
  cp_Name : string;
  cp_Descr : string;
  cp_Value : Z
}.

(** The zero values that [make] fills a slice with. *)
Definition zeroICMP : canonICMPv4ParamRecord :=
  {| OrigDescr := EmptyString; Descr := EmptyString; Value := 0 |}.

Definition zeroProtocol : canonProtocolRecord :=
  {| cp_OrigName := EmptyString; cp_Name := EmptyString;
     cp_Descr := EmptyString; cp_Value := 0 |}.

#[global] Instance canonICMPv4ParamRecord_inhabited
  : Inhabited canonICMPv4ParamRecord := populate zeroICMP.

#[global] Instance canonProtocolRecord_inhabited
  : Inhabited canonProtocolRecord := populate zeroProtocol.

(** Assignments to one field, as in [prs[i].Descr = x]. *)
Definition setOrigDescr (x : string) (r : canonICMPv4ParamRecord) :=
  {| OrigDescr := x; Descr := Descr r; Value := Value r |}.
Definition setDescr (x : string) (r : canonICMPv4ParamRecord) :=
  {| OrigDescr := OrigDescr r; Descr := x; Value := Value r |}.
Definition setValue (x : Z) (r : canonICMPv4ParamRecord) :=
  {| OrigDescr := OrigDescr r; Descr := Descr r; Value := x |}.

Definition set_cp_OrigName (x : string) (r : canonProtocolRecord) :=
  {| cp_OrigName := x; cp_Name := cp_Name r;
     cp_Descr := cp_Descr r; cp_Value := cp_Value r |}.
Definition set_cp_Name (x : string) (r : canonProtocolRecord) :=
  {| cp_OrigName := cp_OrigName r; cp_Name := x;
     cp_Descr := cp_Descr r; cp_Value := cp_Value r |}.
Definition set_cp_Descr (x : string) (r : canonProtocolRecord) :=
  {| cp_OrigName := cp_OrigName r; cp_Name := cp_Name r;
     cp_Descr := x; cp_Value := cp_Value r |}.
Definition set_cp_Value (x : Z) (r : canonProtocolRecord) :=
  {| cp_OrigName := cp_OrigName r; cp_Name := cp_Name r;
     cp_Descr := cp_Descr r; cp_Value := x |}.

(** Errors are modelled by their message, the text that [fmt.Fprintln]
    prints for them. *)
Definition error := string.

Inductive result (A : Type) :=
  | Ok (a : A)
  | Err (err : error).
Arguments Ok {A} a.
Arguments Err {A} err.

(** [http.Response], as far as the program reads it. *)
Record Response := {
  StatusCode : Z;
  Body : string
}.

Definition StatusOK : Z := 200.

(** What the operating system sees of a run. *)
Record Process := {
  Stdout : string;
  Stderr : string;
  ExitCode : Z
}.

(** [fmt.Fprintln(os.Stderr, ...); os.Exit(1)] *)
Definition exit1 (report : string) : Process :=
  {| Stdout := EmptyString; Stderr := report +:+ nl; ExitCode := 1 |}.

(** ** The program *)

Section Gen.

(** The platform and the parts of the Go libraries and of the network
    that the program is run against. *)
Variable intSize : IntSize.
Variable mapToLower : string -> string.
Variable quoteRunes : string -> string.
(** [xml.NewDecoder(r).Decode(&v)] for the two shapes *)
Variable xmlDecodeICMP : string -> result icmpv4Parameters.
Variable xmlDecodeProtocol : string -> result protocolNumbers.
(** [http.Get(url)] *)
Variable httpGet : string -> result Response.
(** [format.Source(src)] *)
Variable formatSource : string -> result string.

(** *** [func (icp *icmpv4Parameters) escape()] *)

(** The test of the scan over the registries, line 121. *)
Definition typeTitle (title : string) : bool :=
  Contains title "Type" || Contains title "type".

(** The scan: the index of the first registry that passes the test, or
    the initial [id], which is -1. *)
Fixpoint scanRegistries (rs : list icmpv4Registry) (i : Z) : Z :=
  match rs with
  | [] => -1
  | r :: rest =>
      if typeTitle (reg_Title r) then i else scanRegistries rest (i + 1)
  end.

Definition icmpReplacer : list (string * string) :=
  [ ("Messages", ""); ("Message", ""); ("ICMP", ""); ("+", "P");
    ("-", ""); ("/", ""); (".", ""); (" ", "") ].

(** The test that makes the loop [continue], lines 141 to 145. *)
Definition placeholder (descr : string) : bool :=
  Contains descr "Reserved" || Contains descr "Unassigned" ||
  Contains descr "Deprecated" || Contains descr "Experiment" ||
  Contains descr "experiment".

(** One turn of the loop over the records, on the slice [prs]. *)
Definition escapeICMPRecord (i : nat) (pr : icmpv4Record)
    (prs : list canonICMPv4ParamRecord) : list canonICMPv4ParamRecord :=
  if placeholder (rec_Descr pr) then prs
  else
    let ss := Split (rec_Descr pr) LF in
    let prs :=
      if (1 <? length ss)%nat then alter (setDescr (Join ss " ")) i prs
      else alter (setDescr (hd EmptyString ss)) i prs in
    let s := TrimSpace (Descr (prs !!! i)) in
    let prs := alter (setOrigDescr s) i prs in
    let prs := alter (setDescr (Replace icmpReplacer s)) i prs in
    alter (setValue (fst (Atoi intSize (rec_Value pr)))) i prs.

Fixpoint escapeICMPLoop (i : nat) (records : list icmpv4Record)
    (prs : list canonICMPv4ParamRecord) : list canonICMPv4ParamRecord :=
  match records with
  | [] => prs
  | pr :: rest => escapeICMPLoop (S i) rest (escapeICMPRecord i pr prs)
  end.

Definition icmpv4Parameters_escape (icp : icmpv4Parameters)
  : list canonICMPv4ParamRecord :=
  let id := scanRegistries (icp_Registries icp) 0 in
  if id <? 0 then []
  else
    match icp_Registries icp !! Z.to_nat id with
    | None => [] (* an index out of range; the scan never returns one *)
    | Some r =>
        let prs := replicate (length (reg_Records r)) zeroICMP in
        escapeICMPLoop 0 (reg_Records r) prs
    end.

(** *** [func parseICMPv4Parameters(w io.Writer, r io.Reader) error] *)

Definition icmpHeader (icp : icmpv4Parameters) : string :=
  "// " +:+ icp_Title icp +:+ ", Updated: " +:+ icp_Updated icp +:+ nl.

(** The body of the first loop, lines 80 to 84. *)
Definition writeICMPConst (w : string) (pr : canonICMPv4ParamRecord)
  : string :=
  if String.eqb (Descr pr) "" then w
  else
    let w := w +:+ "ICMPType" +:+ Descr pr +:+ " ICMPType = "
               +:+ itoa (Value pr) in
    w +:+ "// " +:+ OrigDescr pr +:+ nl.

(** The body of the second loop, lines 90 to 93. *)
Definition writeICMPEntry (w : string) (pr : canonICMPv4ParamRecord)
  : string :=
  if String.eqb (Descr pr) "" then w
  else
    w +:+ itoa (Value pr) +:+ ": "
      +:+ Quote quoteRunes (ToLower mapToLower (OrigDescr pr))
      +:+ "," +:+ nl.

Definition parseICMPv4Parameters (w : string) (r : string)
  : string * option error :=
  match xmlDecodeICMP r with
  | Err err => (w, Some err)
  | Ok icp =>
      let prs := icmpv4Parameters_escape icp in
      let w := w +:+ icmpHeader icp in
      let w := w +:+ "const (" +:+ nl in
      let w := foldl writeICMPConst w prs in
      let w := w +:+ ")" +:+ nl +:+ nl in
      let w := w +:+ icmpHeader icp in
      let w := w +:+ "var icmpTypes = map[ICMPType]string{" +:+ nl in
      let w := foldl writeICMPEntry w prs in
      let w := w +:+ "}" +:+ nl in
      (w, None)
  end.

(** *** [func (pn *protocolNumbers) escape()] *)

Definition protocolReplacer : list (string * string) :=
  [ ("-in-", "in"); ("-within-", "within"); ("-over-", "over");
    ("+", "P"); ("-", ""); ("/", ""); (".", ""); (" ", "") ].

Definition escapeProtocolRecord (i : nat) (pr : protocolRecord)
    (prs : list canonProtocolRecord) : list canonProtocolRecord :=
  let prs := alter (set_cp_OrigName (pr_Name pr)) i prs in
  let s := TrimSpace (pr_Name pr) in
  let prs :=
    if String.eqb (pr_Name pr) "ISIS over IPv4"
    then alter (set_cp_Name "ISIS") i prs
    else if String.eqb (pr_Name pr) "manet"
    then alter (set_cp_Name "MANET") i prs
    else alter (set_cp_Name (Replace protocolReplacer s)) i prs in
  let ss := Split (pr_Descr pr) LF in
  let ss := map TrimSpace ss in
  let prs :=
    if (1 <? length ss)%nat then alter (set_cp_Descr (Join ss " ")) i prs
    else alter (set_cp_Descr (hd EmptyString ss)) i prs in
  alter (set_cp_Value (fst (Atoi intSize (pr_Value pr)))) i prs.

Fixpoint escapeProtocolLoop (i : nat) (records : list protocolRecord)
    (prs : list canonProtocolRecord) : list canonProtocolRecord :=
  match records with
  | [] => prs
  | pr :: rest =>
      escapeProtocolLoop (S i) rest (escapeProtocolRecord i pr prs)
  end.

Definition protocolNumbers_escape (pn : protocolNumbers)
  : list canonProtocolRecord :=
  let prs := replicate (length (pn_Records pn)) zeroProtocol in
  escapeProtocolLoop 0 (pn_Records pn) prs.

(** *** [func parseProtocolNumbers(w io.Writer, r io.Reader) error] *)

(** The record that line 169 puts in front. *)
Definition pseudoIP : canonProtocolRecord :=
  {| cp_OrigName := EmptyString;
     cp_Name := "IP";
     cp_Descr := "IPv4 encapsulation, pseudo protocol number";
     cp_Value := 0 |}.

Definition protocolHeader (pn : protocolNumbers) : string :=
  "// " +:+ pn_Title pn +:+ ", Updated: " +:+ pn_Updated pn +:+ nl.

(** The body of the loop, lines 177 to 185. *)
Definition writeProtocolConst (w : string) (pr : canonProtocolRecord)
  : string :=
  if String.eqb (cp_Name pr) "" then w
  else
    let w := w +:+ "ianaProtocol" +:+ cp_Name pr +:+ " = "
               +:+ itoa (cp_Value pr) in
    let s := cp_Descr pr in
    let s := if String.eqb s "" then cp_OrigName pr else s in
    w +:+ "// " +:+ s +:+ nl.

Definition parseProtocolNumbers (w : string) (r : string)
  : string * option error :=
  match xmlDecodeProtocol r with
  | Err err => (w, Some err)
  | Ok pn =>
      let prs := protocolNumbers_escape pn in
      let prs := [pseudoIP] ++ prs in
      let w := w +:+ protocolHeader pn in
      let w := w +:+ "const (" +:+ nl in
      let w := foldl writeProtocolConst w prs in
      let w := w +:+ ")" +:+ nl in
      (w, None)
  end.

(** *** [func main()] *)

Definition icmpURL : string :=
  "http://www.iana.org/assignments/icmp-parameters/icmp-parameters.xml".
Definition protocolURL : string :=
  "http://www.iana.org/assignments/protocol-numbers/protocol-numbers.xml".

(** [var registries] *)
Definition registries
  : list (string * (string -> string -> string * option error)) :=
  [ (icmpURL, parseICMPv4Parameters);
    (protocolURL, parseProtocolNumbers) ].

(** The first three lines that [main] writes to its buffer. *)
Definition preamble : string :=
  ("// go run gen.go" +:+ nl)
  +:+ ("// GENERATED BY THE COMMAND ABOVE; DO NOT EDIT" +:+ nl +:+ nl)
  +:+ ("package ipv4" +:+ nl +:+ nl).

(** The loop over the registries on the buffer [bb]: the buffer after
    the last registry, or the process that [os.Exit] leaves behind. *)
Fixpoint fetchAll
    (rs : list (string * (string -> string -> string * option error)))
    (bb : string) : string + Process :=
  match rs with
  | [] => inl bb
  | (url, parse) :: rest =>
      match httpGet url with
      | Err err => inr (exit1 err)
      | Ok resp =>
          if negb (StatusCode resp =? StatusOK) then
            inr (exit1 ("got HTTP status code " +:+ itoa (StatusCode resp)
                          +:+ " for " +:+ url))
          else
            match parse bb (Body resp) with
            | (_, Some err) => inr (exit1 err)
            | (bb, None) => fetchAll rest (bb +:+ nl)
            end
      end
  end.

Definition main : Process :=
  match fetchAll registries preamble with
  | inr p => p
  | inl bb =>
      match formatSource bb with
      | Err err => exit1 err
      | Ok b => {| Stdout := b; Stderr := EmptyString; ExitCode := 0 |}
      end
  end.

End Gen.

(** ** Specification vocabulary *)

(** [sub] occurs in [s]. *)
Definition Substring (sub s : string) : Prop :=
  exists pre post, s = pre +:+ sub +:+ post.

(** [v] is [w] up to the case of its letters. *)
Definition CaseVariant (w v : string) : Prop :=
  lowerASCII v = lowerASCII w.

(** The description as the canonicalizers join it, lines 148 to 153. *)
Definition joinLines (ss : list string) : string :=
  if (1 <? length ss)%nat then Join ss " " else hd EmptyString ss.

(** What [icmpv4Parameters.escape] leaves at the index of a record. *)
Definition canonICMP (sz : IntSize) (pr : icmpv4Record)
  : canonICMPv4ParamRecord :=
  if placeholder (rec_Descr pr) then zeroICMP
  else
    let s := TrimSpace (joinLines (Split (rec_Descr pr) LF)) in
    {| OrigDescr := s;
       Descr := Replace icmpReplacer s;
       Value := fst (Atoi sz (rec_Value pr)) |}.

(** What [protocolNumbers.escape] leaves at the index of a record. *)
Definition canonProtocol (sz : IntSize) (pr : protocolRecord)
  : canonProtocolRecord :=
  {| cp_OrigName := pr_Name pr;
     cp_Name :=
       if String.eqb (pr_Name pr) "ISIS over IPv4" then "ISIS"
       else if String.eqb (pr_Name pr) "manet" then "MANET"
       else Replace protocolReplacer (TrimSpace (pr_Name pr));
     cp_Descr := joinLines (map TrimSpace (Split (pr_Descr pr) LF));
     cp_Value := fst (Atoi sz (pr_Value pr)) |}.

(** The text is made of decimal digits only. *)
Fixpoint allDigits (s : string) : bool :=
  match s with
  | EmptyString => true
  | String c t => isDigit c && allDigits t
  end.

(** The number that a text of decimal digits denotes, without bound. *)
Fixpoint decimalFrom (s : string) (n : Z) : Z :=
  match s with
  | EmptyString => n
  | String c t => decimalFrom t (10 * n + digitVal c)
  end.

Definition decimal (s : string) : Z := decimalFrom s 0.

(** The text of a list of lines. *)
Fixpoint catLines (lines : list string) : string :=
  match lines with
  | [] => EmptyString
  | l :: rest => l +:+ catLines rest
  end.

(** The line of the constant block for an ICMP record. *)
Definition icmpConstLine (pr : canonICMPv4ParamRecord) : string :=
  "ICMPType" +:+ Descr pr +:+ " ICMPType = " +:+ itoa (Value pr)
    +:+ "// " +:+ OrigDescr pr +:+ nl.

(** The line of the lookup table for an ICMP record. *)
Definition icmpEntryLine (mapToLower quoteRunes : string -> string)
    (pr : canonICMPv4ParamRecord) : string :=
  itoa (Value pr) +:+ ": "
    +:+ Quote quoteRunes (ToLower mapToLower (OrigDescr pr)) +:+ "," +:+ nl.

(** The line of the constant block for a protocol record. *)
Definition protocolConstLine (pr : canonProtocolRecord) : string :=
  "ianaProtocol" +:+ cp_Name pr +:+ " = " +:+ itoa (cp_Value pr)
    +:+ "// "
    +:+ (if String.eqb (cp_Descr pr) "" then cp_OrigName pr else cp_Descr pr)
    +:+ nl.

(** The records that the emitters print: those with a canonical
    identifier. *)
Definition emittedICMP (prs : list canonICMPv4ParamRecord)
  : list canonICMPv4ParamRecord :=
  filter (fun pr => Descr pr <> EmptyString) prs.

Definition emittedProtocol (prs : list canonProtocolRecord)
  : list canonProtocolRecord :=
  filter (fun pr => cp_Name pr <> EmptyString) prs.

(** The two blocks that a run prints for an ICMP registry whose canonical
    records are [prs]. *)
Definition icmpText (mapToLower quoteRunes : string -> string)
    (icp : icmpv4Parameters) (prs : list canonICMPv4ParamRecord) : string :=
  icmpHeader icp +:+ "const (" +:+ nl
    +:+ catLines (map icmpConstLine (emittedICMP prs))
    +:+ ")" +:+ nl +:+ nl
    +:+ icmpHeader icp +:+ "var icmpTypes = map[ICMPType]string{" +:+ nl
    +:+ catLines (map (icmpEntryLine mapToLower quoteRunes) (emittedICMP prs))
    +:+ "}" +:+ nl.

(** The block that a run prints for a protocol registry whose canonical
    records, the leading one included, are [prs]. *)
Definition protocolText (pn : protocolNumbers)
    (prs : list canonProtocolRecord) : string :=
  protocolHeader pn +:+ "const (" +:+ nl
    +:+ catLines (map protocolConstLine (emittedProtocol prs))
    +:+ ")" +:+ nl.

(** The buffer that [main] hands to [format.Source] when both registries
    were fetched and decoded. *)
Definition generated (sz : IntSize) (mapToLower quoteRunes : string -> string)
    (icp : icmpv4Parameters) (pn : protocolNumbers) : string :=
  preamble
    +:+ icmpText mapToLower quoteRunes icp (icmpv4Parameters_escape sz icp)
    +:+ nl
    +:+ protocolText pn (pseudoIP :: protocolNumbers_escape sz pn)
    +:+ nl.

(** The errors of a run. *)
Definition FetchError (httpGet : string -> result Response) (url : string)
  : Prop :=
  exists err, httpGet url = Err err.

Definition StatusError (httpGet : string -> result Response) (url : string)
  : Prop :=
  exists resp, httpGet url = Ok resp /\ StatusCode resp <> StatusOK.

Definition DecodeError {A} (httpGet : string -> result Response)
    (decode : string -> result A) (url : string) : Prop :=
  exists resp err, httpGet url = Ok resp /\ decode (Body resp) = Err err.

Definition FormatError (sz : IntSize) (mapToLower quoteRunes : string -> string)
    (xmlDecodeICMP : string -> result icmpv4Parameters)
    (xmlDecodeProtocol : string -> result protocolNumbers)
    (httpGet : string -> result Response)
    (formatSource : string -> result string) : Prop :=
  exists r1 icp r2 pn err,
    httpGet icmpURL = Ok r1 /\ xmlDecodeICMP (Body r1) = Ok icp /\
    httpGet protocolURL = Ok r2 /\ xmlDecodeProtocol (Body r2) = Ok pn /\
    formatSource (generated sz mapToLower quoteRunes icp pn) = Err err.

(** [s] starts with [p]. *)
Definition StartsWith (s p : string) : Prop := exists t, s = p +:+ t.

(** [(old, new)] is the first pair of [oldnew], in argument order, whose
    old string starts [s]. *)
Definition FirstMatch (oldnew : list (string * string)) (s old new : string)
  : Prop :=
  exists before after,
    oldnew = before ++ (old, new) :: after /\ StartsWith s old /\
    Forall (fun p => ~ StartsWith s (fst p)) before.

(** The single pass of a replacer, as a relation between the text and the
    result: at each offset the first pair that matches is applied and the
    pass goes on after the matched text, whose replacement is not looked at
    again; where no pair matches, one byte is copied. *)
Inductive OnePass (oldnew : list (string * string)) : string -> string -> Prop :=
  | OnePass_end : OnePass oldnew EmptyString EmptyString
  | OnePass_match old new rest out :
      FirstMatch oldnew (old +:+ rest) old new ->
      OnePass oldnew rest out ->
      OnePass oldnew (old +:+ rest) (new +:+ out)
  | OnePass_copy c rest out :
      Forall (fun p => ~ StartsWith (String c rest) (fst p)) oldnew ->
      OnePass oldnew rest out ->
      OnePass oldnew (String c rest) (String c out).

(** The rewriting that the specification describes: the pairs are applied
    one after the other, each to the whole result of the one before it.
    With a single pair the pass of a replacer is [strings.ReplaceAll]. *)
Definition spec_sequentialRewrite (oldnew : list (string * string))
    (s : string) : string :=
  foldl (fun acc p => Replace [p] acc) s oldnew.

(** The title contains neither spelling that the scan looks for. *)
Definition NoTypeTitle (r : icmpv4Registry) : Prop :=
  ~ Substring "Type" (reg_Title r) /\ ~ Substring "type" (reg_Title r).

(** [r] is the first sub-registry of [icp], [pre] being those before it,
    whose title contains [Type] or [type]. *)
Definition FirstTypeRegistry (icp : icmpv4Parameters)
    (pre : list icmpv4Registry) (r : icmpv4Registry) : Prop :=
  (exists post, icp_Registries icp = pre ++ r :: post) /\
  Forall NoTypeTitle pre /\
  (Substring "Type" (reg_Title r) \/ Substring "type" (reg_Title r)).

(** The description contains one of the five words of the filter, in the
    case in which the filter spells them. *)
Definition Placeholder (descr : string) : Prop :=
  Substring "Reserved" descr \/ Substring "Unassigned" descr \/
  Substring "Deprecated" descr \/ Substring "Experiment" descr \/
  Substring "experiment" descr.

(** The canonical identifier as the specification describes it. *)
Definition spec_canonicalIdentifier (descr : string) : string :=
  spec_sequentialRewrite icmpReplacer (TrimSpace (joinLines (Split descr LF))).

(** An ICMP document with one type registry, and a protocol document, for
    the examples. *)
Definition icmpDocument (title : string) (records : list icmpv4Record)
  : icmpv4Parameters :=
  {| icp_Title := "ICMP Parameters";
     icp_Updated := "2013-04-19";
     icp_Registries := [ {| reg_Title := title; reg_Records := records |} ] |}.

Definition protocolDocument (records : list protocolRecord)
  : protocolNumbers :=
  {| pn_Title := "Protocol Numbers";
     pn_Updated := "2013-02-17";
     pn_RegTitle := "Assigned Internet Protocol Numbers";
     pn_Note := EmptyString;
     pn_Records := records |}.

(** The numeric value as the specification describes it: not negative,
    and zero whenever [strconv.Atoi] reports an error for the text. *)
Definition spec_numericValue (sz : IntSize) (text : string) (value : Z)
  : Prop :=
  0 <= value /\ (snd (Atoi sz text) <> None -> value = 0).

(** The bytes that both replacers take out of a name. *)
Definition separators : list string := ["+"; "-"; "/"; "."; " "].

(** The text with every byte [a] turned into the byte [b]. *)
Fixpoint replaceByte (a b : ascii) (s : string) : string :=
  match s with
  | EmptyString => EmptyString
  | String c t => String (if Ascii.eqb c a then b else c) (replaceByte a b t)
  end.

(** A stage of the run, for the registry at [url]: it went through, with
    the response [resp] and the document [doc], or it failed with the
    report that [main] prints for the failure. *)
Definition StageOK {A} (httpGet : string -> result Response)
    (decode : string -> result A) (url : string) (resp : Response) (doc : A)
  : Prop :=
  httpGet url = Ok resp /\ StatusCode resp = StatusOK /\
  decode (Body resp) = Ok doc.

Definition StageError {A} (httpGet : string -> result Response)
    (decode : string -> result A) (url : string) (report : string) : Prop :=
  httpGet url = Err report
  \/ (exists resp,
        httpGet url = Ok resp /\ StatusCode resp <> StatusOK /\
        report = "got HTTP status code " +:+ itoa (StatusCode resp)
                   +:+ " for " +:+ url)
  \/ (exists resp,
        httpGet url = Ok resp /\ StatusCode resp = StatusOK /\
        decode (Body resp) = Err report).

(** [report] is the report of the first error of the run, in the order of
    its stages: the ICMP registry, the protocol registry, the
    formatting. *)
Definition FirstError (sz : IntSize) (mapToLower quoteRunes : string -> string)
    (xmlDecodeICMP : string -> result icmpv4Parameters)
    (xmlDecodeProtocol : string -> result protocolNumbers)
    (httpGet : string -> result Response)
    (formatSource : string -> result string) (report : string) : Prop :=
  StageError httpGet xmlDecodeICMP icmpURL report
  \/ (exists r1 icp,
        StageOK httpGet xmlDecodeICMP icmpURL r1 icp /\
        (StageError httpGet xmlDecodeProtocol protocolURL report
         \/ (exists r2 pn,
               StageOK httpGet xmlDecodeProtocol protocolURL r2 pn /\
               formatSource (generated sz mapToLower quoteRunes icp pn)
               = Err report))).

(** The text is one line: its only line feed is its last byte. *)
Definition OneLine (line : string) : Prop :=
  exists body, line = body +:+ nl /\ ~ Substring nl body.

(** ** Strings *)

Lemma append_cons c s t : String c s +:+ t = String c (s +:+ t).
Proof. reflexivity. Qed.

Lemma append_nil_r s : s +:+ EmptyString = s.
Proof. induction s as [|c s IH]; [done|]. by rewrite append_cons, IH. Qed.

Lemma append_assoc s t u : (s +:+ t) +:+ u = s +:+ t +:+ u.
Proof.
  induction s as [|c s IH]; [done|]. by rewrite !append_cons, IH.
Qed.

Lemma append_length s t :
  String.length (s +:+ t) = (String.length s + String.length t)%nat.
Proof.
  induction s as [|c s IH]; [done|]. rewrite append_cons. simpl. by rewrite IH.
Qed.

Lemma HasPrefix_spec s p : HasPrefix s p = true <-> exists t, s = p +:+ t.
Proof.
  revert s. induction p as [|c p IH]; intros s.
  - destruct s; simpl; split; eauto.
  - destruct s as [|d s]; simpl.
    + split; [done|]. intros [t Ht]. discriminate.
    + rewrite andb_true_iff, IH, Ascii.eqb_eq. split.
      * intros [-> [t ->]]. by exists t.
      * intros [t Ht]. rewrite append_cons in Ht. injection Ht as -> ->. eauto.
Qed.

Lemma Contains_spec s sub : Contains s sub = true <-> Substring sub s.
Proof.
  unfold Substring. induction s as [|c s IH].
  - cbn [Contains]. rewrite orb_false_r, HasPrefix_spec. split.
    + intros [t Ht]. by exists EmptyString, t.
    + intros [[|d pre] [post H]]; [by exists post|]. discriminate.
  - cbn [Contains]. rewrite orb_true_iff, HasPrefix_spec, IH. split.
    + intros [[t Ht]|(pre & post & Ht)].
      * by exists EmptyString, t.
      * exists (String c pre), post. by rewrite append_cons, Ht.
    + intros [[|d pre] [post H]].
      * left. by exists post.
      * right. rewrite append_cons in H. injection H as -> ->. eauto.
Qed.

Lemma Contains_false s sub : Contains s sub = false <-> ~ Substring sub s.
Proof.
  rewrite <- Contains_spec. destruct (Contains s sub); split; congruence.
Qed.

(** ** [strconv.Atoi] *)

Lemma digitVal_range c : isDigit c = true -> 0 <= digitVal c <= 9.
Proof.
  unfold isDigit, digitVal. rewrite andb_true_iff, !N.leb_le. lia.
Qed.

Lemma isDigit_not_sign c :
  isDigit c = true -> Ascii.eqb c "+" = false /\ Ascii.eqb c "-" = false.
Proof.
  intros H. split; apply Ascii.eqb_neq; intros ->; vm_compute in H; done.
Qed.

Lemma decimalFrom_ge s n :
  allDigits s = true -> 0 <= n -> n <= decimalFrom s n.
Proof.
  revert n. induction s as [|c s IH]; intros n Hs Hn; simpl in *; [lia|].
  apply andb_true_iff in Hs as [Hc Hs]. apply digitVal_range in Hc.
  specialize (IH (10 * n + digitVal c) Hs). lia.
Qed.

Lemma parseUintLoop_digits maxVal s n :
  allDigits s = true -> 0 <= n <= maxVal -> maxVal <= maxUint64 ->
  parseUintLoop (maxUint64 / 10 + 1) maxVal s n =
    if decimalFrom s n <=? maxVal then (decimalFrom s n, None)
    else (maxVal, Some ErrRange).
Proof.
  change (maxUint64 / 10 + 1) with 1844674407370955162.
  unfold maxUint64. change (2 ^ 64 - 1) with 18446744073709551615.
  revert n. induction s as [|c s IH]; intros n Hs Hn Hmax; simpl in *.
  { destruct (Z.leb_spec n maxVal); [done|lia]. }
  apply andb_true_iff in Hs as [Hc Hs]. rewrite Hc. simpl.
  pose proof (digitVal_range c Hc) as Hd.
  pose proof (decimalFrom_ge s (10 * n + digitVal c) Hs) as Hge.
  destruct (Z.leb_spec 1844674407370955162 n) as [Hcut|Hcut].
  { destruct (Z.leb_spec (decimalFrom s (10 * n + digitVal c)) maxVal);
      [lia|done]. }
  change (2 ^ 64) with 18446744073709551616.
  destruct (Z.lt_ge_cases (n * 10 + digitVal c) 18446744073709551616)
    as [Hsmall|Hbig].
  - rewrite (Z.mod_small (n * 10 + digitVal c)) by lia.
    destruct (Z.ltb_spec (n * 10 + digitVal c) (n * 10)); [lia|]. simpl.
    destruct (Z.ltb_spec maxVal (n * 10 + digitVal c)).
    + destruct (Z.leb_spec (decimalFrom s (10 * n + digitVal c)) maxVal);
        [lia|done].
    + rewrite IH by (done || lia). by replace (n * 10) with (10 * n) by lia.
  - assert ((n * 10 + digitVal c) mod 18446744073709551616
            = n * 10 + digitVal c - 18446744073709551616) as ->.
    { symmetry. apply Z.mod_unique with 1; lia. }
    destruct (Z.ltb_spec (n * 10 + digitVal c - 18446744073709551616)
                (n * 10)); [|lia]. simpl.
    destruct (Z.leb_spec (decimalFrom s (10 * n + digitVal c)) maxVal);
      [lia|done].
Qed.

Lemma ParseUint_digits bitSize s :
  s <> EmptyString -> allDigits s = true -> 0 < bitSize <= 64 ->
  ParseUint s bitSize =
    if decimal s <=? 2 ^ bitSize - 1 then (decimal s, None)
    else (2 ^ bitSize - 1, Some ErrRange).
Proof.
  intros Hne Hs Hb. destruct s as [|c s]; [done|]. unfold ParseUint.
  apply parseUintLoop_digits; [done| |].
  - assert (0 < 2 ^ bitSize) by (apply Z.pow_pos_nonneg; lia). lia.
  - unfold maxUint64.
    assert (2 ^ bitSize <= 2 ^ 64) by (apply Z.pow_le_mono_r; lia). lia.
Qed.

Lemma decimal_nonneg s : allDigits s = true -> 0 <= decimal s.
Proof. intros Hs. by apply decimalFrom_ge. Qed.

Lemma wrapSigned_small w z :
  0 < w -> - 2 ^ (w - 1) <= z < 2 ^ (w - 1) -> wrapSigned w z = z.
Proof.
  intros Hw Hz. unfold wrapSigned.
  assert (2 ^ w = 2 * 2 ^ (w - 1)) as ->.
  { rewrite <- Z.pow_succ_r by lia. f_equal. lia. }
  rewrite Z.mod_small; lia.
Qed.

Lemma wrapSigned_32 z :
  -2147483648 <= z < 2147483648 -> wrapSigned 32 z = z.
Proof. intros Hz. by apply wrapSigned_small. Qed.

Lemma wrapSigned_64 z :
  -9223372036854775808 <= z < 9223372036854775808 -> wrapSigned 64 z = z.
Proof. intros Hz. by apply wrapSigned_small. Qed.

Lemma bits_cases sz :
  bits sz = 32 /\ maxInt sz = 2147483647 /\ minInt sz = -2147483648
  \/ bits sz = 64 /\ maxInt sz = 9223372036854775807
     /\ minInt sz = -9223372036854775808.
Proof. destruct sz; [left|right]; done. Qed.

(** The case analysis on the comparisons of [ParseInt] and the conversions
    that follow them. *)
Ltac parseInt_cases :=
  change (2 ^ 32 - 1) with 4294967295;
  change (2 ^ (32 - 1)) with 2147483648;
  change (2 ^ 64 - 1) with 18446744073709551615;
  change (2 ^ (64 - 1)) with 9223372036854775808;
  repeat (match goal with
          | |- context [Z.leb ?a ?b] => destruct (Z.leb_spec a b); try lia
          | |- context [Z.ltb ?a ?b] => destruct (Z.ltb_spec a b); try lia
          end; cbn [negb andb fst snd]);
  repeat match goal with
         | |- context [wrapSigned 64 ?z] => rewrite (wrapSigned_64 z) by lia
         | |- context [wrapSigned 32 ?z] => rewrite (wrapSigned_32 z) by lia
         end;
  try (f_equal; lia).

(** A numeral without sign: its value, or the largest [int] when the value
    does not fit. *)
Lemma Atoi_unsigned sz s :
  s <> EmptyString -> allDigits s = true ->
  Atoi sz s = if decimal s <=? maxInt sz then (decimal s, None)
              else (maxInt sz, Some ErrRange).
Proof.
  intros Hne Hs. pose proof (decimal_nonneg s Hs) as H0.
  unfold Atoi, ParseInt. destruct s as [|c s]; [done|].
  pose proof Hs as Hc. simpl in Hc. apply andb_true_iff in Hc as [Hc _].
  destruct (isDigit_not_sign c Hc) as [-> ->]. simpl orb. cbv iota.
  rewrite ParseUint_digits by (done || destruct sz; simpl; lia).
  set (d := decimal (String c s)) in *. clearbody d.
  destruct (bits_cases sz) as [(-> & -> & _)|(-> & -> & _)]; parseInt_cases.
Qed.

(** A numeral with a sign: the sign is read off and the digits that follow
    are parsed as above; a negative value that does not fit gives the
    smallest [int]. *)
Lemma Atoi_plus sz s :
  s <> EmptyString -> allDigits s = true ->
  Atoi sz (String "+" s) = if decimal s <=? maxInt sz then (decimal s, None)
                           else (maxInt sz, Some ErrRange).
Proof.
  intros Hne Hs. pose proof (decimal_nonneg s Hs) as H0.
  unfold Atoi, ParseInt. simpl orb. cbv iota.
  change (Ascii.eqb "+" "-") with false.
  rewrite ParseUint_digits by (done || destruct sz; simpl; lia).
  set (d := decimal s) in *. clearbody d.
  destruct (bits_cases sz) as [(-> & -> & _)|(-> & -> & _)]; parseInt_cases.
Qed.

Lemma Atoi_minus sz s :
  s <> EmptyString -> allDigits s = true ->
  Atoi sz (String "-" s) = if minInt sz <=? - decimal s
                           then (- decimal s, None)
                           else (minInt sz, Some ErrRange).
Proof.
  intros Hne Hs. pose proof (decimal_nonneg s Hs) as H0.
  unfold Atoi, ParseInt. simpl orb. cbv iota.
  change (Ascii.eqb "-" "-") with true.
  rewrite ParseUint_digits by (done || destruct sz; simpl; lia).
  set (d := decimal s) in *. clearbody d.
  destruct (bits_cases sz) as [(-> & _ & ->)|(-> & _ & ->)];
    [parseInt_cases|].
  destruct (Z.eq_dec d 9223372036854775808) as [->|Hd];
    [by vm_compute|parseInt_cases].
Qed.

(** A syntax error comes with the value zero. *)
Lemma Atoi_syntax sz s :
  snd (Atoi sz s) = Some ErrSyntax -> fst (Atoi sz s) = 0.
Proof.
  unfold Atoi, ParseInt. destruct s as [|c s]; [by destruct sz|].
  destruct (ParseUint _ _) as [un [[]|]];
    [by destruct sz| |];
    repeat match goal with
           | |- context [if ?b then _ else _] => destruct b
           end; simpl; done.
Qed.

(** ** The replacer *)

Lemma lookup_Some oldnew s old new :
  lookup oldnew s = Some (old, new) -> FirstMatch oldnew s old new.
Proof.
  induction oldnew as [|[o n] rest IH]; simpl; [done|].
  destruct (HasPrefix s o) eqn:Hp.
  - intros [= -> ->]. exists [], rest. repeat split; [|done].
    by apply HasPrefix_spec.
  - intros (before & after & -> & Hs & Hb)%IH.
    exists ((o, n) :: before), after. repeat split; [done|].
    constructor; [|done]. simpl. intros Ho%HasPrefix_spec. congruence.
Qed.

Lemma lookup_None oldnew s :
  lookup oldnew s = None ->
  Forall (fun p => ~ StartsWith s (fst p)) oldnew.
Proof.
  induction oldnew as [|[o n] rest IH]; simpl; [done|].
  destruct (HasPrefix s o) eqn:Hp; [done|]. intros Hl.
  constructor; [|by apply IH]. simpl. intros Ho%HasPrefix_spec. congruence.
Qed.

Lemma replaceFrom_skip oldnew p rest :
  replaceFrom oldnew (String.length p) (p +:+ rest) = Replace oldnew rest.
Proof.
  induction p as [|c p IH]; [by destruct rest|].
  by rewrite append_cons.
Qed.

Lemma lookup_FirstMatch oldnew s old new :
  FirstMatch oldnew s old new -> lookup oldnew s = Some (old, new).
Proof.
  intros (before & after & -> & Hs & Hb).
  induction Hb as [|[o n] before Ho _ IH]; simpl.
  - apply HasPrefix_spec in Hs. by rewrite Hs.
  - destruct (HasPrefix s o) eqn:Hp; [|done].
    by apply HasPrefix_spec in Hp.
Qed.

Lemma lookup_no_match oldnew s :
  Forall (fun p => ~ StartsWith s (fst p)) oldnew -> lookup oldnew s = None.
Proof.
  induction 1 as [|[o n] rest Ho _ IH]; simpl; [done|].
  destruct (HasPrefix s o) eqn:Hp; [|done]. by apply HasPrefix_spec in Hp.
Qed.

(** The two equations of the pass. *)
Lemma Replace_match oldnew old new rest :
  old <> EmptyString ->
  lookup oldnew (old +:+ rest) = Some (old, new) ->
  Replace oldnew (old +:+ rest) = new +:+ Replace oldnew rest.
Proof.
  intros Hne Hl. destruct old as [|c old]; [done|].
  unfold Replace at 1. rewrite append_cons. simpl replaceFrom.
  rewrite append_cons in Hl. rewrite Hl. simpl Nat.pred.
  by rewrite replaceFrom_skip.
Qed.

Lemma Replace_copy oldnew c t :
  lookup oldnew (String c t) = None ->
  Replace oldnew (String c t) = String c (Replace oldnew t).
Proof. intros Hl. unfold Replace. simpl. by rewrite Hl. Qed.

(** The function [Replace] computes the pass. *)
Lemma Replace_OnePass oldnew s :
  Forall (fun p => fst p <> EmptyString) oldnew ->
  OnePass oldnew s (Replace oldnew s).
Proof.
  intros Hne. remember (String.length s) as n eqn:Hn. revert s Hn.
  induction n as [n IH] using lt_wf_ind. intros [|c t] Hn.
  { constructor. }
  destruct (lookup oldnew (String c t)) as [[old new]|] eqn:Hl.
  - pose proof (lookup_Some _ _ _ _ Hl) as Hfirst.
    destruct Hfirst as (before & after & Holdnew & [rest Hrest] & Hb).
    assert (old <> EmptyString) as Hold.
    { rewrite Holdnew in Hne. apply Forall_app in Hne as [_ Hne].
      by apply Forall_cons in Hne as [Hne _]. }
    rewrite Hrest in Hl |- *. rewrite (Replace_match _ _ _ _ Hold Hl).
    apply OnePass_match.
    + exists before, after. repeat split; [done|by exists rest|].
      by rewrite <- Hrest.
    + apply (IH (String.length rest)); [|done].
      rewrite Hn, Hrest, append_length. destruct old; [done|simpl; lia].
  - rewrite (Replace_copy _ _ _ Hl). apply OnePass_copy.
    + by apply lookup_None.
    + apply (IH (String.length t)); [|done]. rewrite Hn. simpl. lia.
Qed.

(** The pass has no other result. *)
Lemma OnePass_Replace oldnew s out :
  Forall (fun p => fst p <> EmptyString) oldnew ->
  OnePass oldnew s out -> out = Replace oldnew s.
Proof.
  intros Hne. induction 1 as [|old new rest out Hfirst _ IH|c rest out Hno _ IH].
  - done.
  - assert (old <> EmptyString) as Hold.
    { destruct Hfirst as (before & after & Holdnew & _).
      rewrite Holdnew in Hne. apply Forall_app in Hne as [_ Hne].
      by apply Forall_cons in Hne as [Hne _]. }
    rewrite (Replace_match _ _ _ _ Hold (lookup_FirstMatch _ _ _ _ Hfirst)).
    by rewrite IH.
  - rewrite (Replace_copy _ _ _ (lookup_no_match _ _ Hno)). by rewrite IH.
Qed.

Lemma icmpReplacer_nonempty :
  Forall (fun p => fst p <> EmptyString) icmpReplacer.
Proof. repeat constructor; done. Qed.

(** ** The canonicalizers as maps over the records *)

Lemma alter_middle {A} (f : A -> A) (l1 l2 : list A) (x : A) :
  alter f (length l1) (l1 ++ x :: l2) = l1 ++ f x :: l2.
Proof. by rewrite <- (Nat.add_0_r (length l1)), alter_app_r. Qed.

Lemma lookup_total_middle `{!Inhabited A} (l1 l2 : list A) (x : A) :
  (l1 ++ x :: l2) !!! length l1 = x.
Proof. by apply list_lookup_total_middle. Qed.

Lemma escapeICMPRecord_middle sz l1 l2 pr :
  escapeICMPRecord sz (length l1) pr (l1 ++ zeroICMP :: l2)
  = l1 ++ canonICMP sz pr :: l2.
Proof.
  unfold escapeICMPRecord, canonICMP.
  destruct (placeholder (rec_Descr pr)); [done|].
  destruct (1 <? length (Split (rec_Descr pr) LF))%nat eqn:Hlen;
    unfold joinLines; rewrite Hlen;
    repeat (rewrite alter_middle || rewrite lookup_total_middle); done.
Qed.

Lemma escapeICMPLoop_map sz records l1 :
  escapeICMPLoop sz (length l1) records
    (l1 ++ replicate (length records) zeroICMP)
  = l1 ++ map (canonICMP sz) records.
Proof.
  revert l1. induction records as [|pr rest IH]; intros l1; [done|].
  simpl. rewrite escapeICMPRecord_middle.
  specialize (IH (l1 ++ [canonICMP sz pr])).
  rewrite length_app, <- !(assoc_L (++)) in IH. simpl in IH.
  by replace (S (length l1)) with (length l1 + 1)%nat by lia.
Qed.

Lemma escapeProtocolRecord_middle sz l1 l2 pr :
  escapeProtocolRecord sz (length l1) pr (l1 ++ zeroProtocol :: l2)
  = l1 ++ canonProtocol sz pr :: l2.
Proof.
  unfold escapeProtocolRecord, canonProtocol, joinLines.
  destruct (String.eqb (pr_Name pr) "ISIS over IPv4");
    [|destruct (String.eqb (pr_Name pr) "manet")];
    destruct (1 <? length (map TrimSpace (Split (pr_Descr pr) LF)))%nat;
    rewrite !alter_middle; done.
Qed.

Lemma escapeProtocolLoop_map sz records l1 :
  escapeProtocolLoop sz (length l1) records
    (l1 ++ replicate (length records) zeroProtocol)
  = l1 ++ map (canonProtocol sz) records.
Proof.
  revert l1. induction records as [|pr rest IH]; intros l1; [done|].
  simpl. rewrite escapeProtocolRecord_middle.
  specialize (IH (l1 ++ [canonProtocol sz pr])).
  rewrite length_app, <- !(assoc_L (++)) in IH. simpl in IH.
  by replace (S (length l1)) with (length l1 + 1)%nat by lia.
Qed.

Lemma protocolNumbers_escape_map sz pn :
  protocolNumbers_escape sz pn = map (canonProtocol sz) (pn_Records pn).
Proof. apply (escapeProtocolLoop_map sz (pn_Records pn) []). Qed.

(** The scan stops at the first title that passes the test. *)
Lemma scanRegistries_first pre r post i :
  Forall (fun r' => typeTitle (reg_Title r') = false) pre ->
  typeTitle (reg_Title r) = true ->
  scanRegistries (pre ++ r :: post) i = i + Z.of_nat (length pre).
Proof.
  intros Hpre Hr. revert i.
  induction Hpre as [|r' pre Hr' _ IH]; intros i; simpl.
  - rewrite Hr. lia.
  - rewrite Hr', IH. lia.
Qed.

Lemma scanRegistries_none rs i :
  Forall (fun r => typeTitle (reg_Title r) = false) rs ->
  scanRegistries rs i = -1.
Proof.
  intros Hrs. revert i. induction Hrs as [|r rs Hr _ IH]; intros i; simpl;
    [done|]. by rewrite Hr.
Qed.

Lemma icmpv4Parameters_escape_first sz icp pre r post :
  icp_Registries icp = pre ++ r :: post ->
  Forall (fun r' => typeTitle (reg_Title r') = false) pre ->
  typeTitle (reg_Title r) = true ->
  icmpv4Parameters_escape sz icp = map (canonICMP sz) (reg_Records r).
Proof.
  intros Hregs Hpre Hr. unfold icmpv4Parameters_escape.
  rewrite Hregs, (scanRegistries_first pre r post 0 Hpre Hr).
  destruct (Z.ltb_spec (0 + Z.of_nat (length pre)) 0); [lia|].
  replace (Z.to_nat (0 + Z.of_nat (length pre))) with (length pre) by lia.
  rewrite list_lookup_middle by done.
  apply (escapeICMPLoop_map sz (reg_Records r) []).
Qed.

Lemma icmpv4Parameters_escape_none sz icp :
  Forall (fun r => typeTitle (reg_Title r) = false) (icp_Registries icp) ->
  icmpv4Parameters_escape sz icp = [].
Proof.
  intros Hrs. unfold icmpv4Parameters_escape.
  by rewrite (scanRegistries_none _ 0 Hrs).
Qed.

Lemma typeTitle_spec title :
  typeTitle title = true <-> Substring "Type" title \/ Substring "type" title.
Proof. unfold typeTitle. by rewrite orb_true_iff, !Contains_spec. Qed.

Lemma typeTitle_false title :
  typeTitle title = false
  <-> ~ Substring "Type" title /\ ~ Substring "type" title.
Proof. unfold typeTitle. by rewrite orb_false_iff, !Contains_false. Qed.

Lemma placeholder_spec descr :
  placeholder descr = true
  <-> Substring "Reserved" descr \/ Substring "Unassigned" descr
      \/ Substring "Deprecated" descr \/ Substring "Experiment" descr
      \/ Substring "experiment" descr.
Proof.
  unfold placeholder. rewrite !orb_true_iff, !Contains_spec. tauto.
Qed.

(** ** The emitters *)

Lemma foldl_writeICMPConst w prs :
  foldl writeICMPConst w prs
  = w +:+ catLines (map icmpConstLine (emittedICMP prs)).
Proof.
  unfold emittedICMP. revert w.
  induction prs as [|pr prs IH]; intros w; simpl.
  { by rewrite append_nil_r. }
  rewrite IH. unfold writeICMPConst.
  destruct (String.eqb_spec (Descr pr) "") as [He|He].
  - by rewrite filter_cons_False by (intros H; by apply H).
  - rewrite filter_cons_True by done. simpl. unfold icmpConstLine.
    by rewrite !append_assoc.
Qed.

Lemma foldl_writeICMPEntry mapToLower quoteRunes w prs :
  foldl (writeICMPEntry mapToLower quoteRunes) w prs
  = w +:+ catLines (map (icmpEntryLine mapToLower quoteRunes)
                      (emittedICMP prs)).
Proof.
  unfold emittedICMP. revert w.
  induction prs as [|pr prs IH]; intros w; simpl.
  { by rewrite append_nil_r. }
  rewrite IH. unfold writeICMPEntry.
  destruct (String.eqb_spec (Descr pr) "") as [He|He].
  - by rewrite filter_cons_False by (intros H; by apply H).
  - rewrite filter_cons_True by done. simpl. unfold icmpEntryLine.
    by rewrite !append_assoc.
Qed.

Lemma foldl_writeProtocolConst w prs :
  foldl writeProtocolConst w prs
  = w +:+ catLines (map protocolConstLine (emittedProtocol prs)).
Proof.
  unfold emittedProtocol. revert w.
  induction prs as [|pr prs IH]; intros w; simpl.
  { by rewrite append_nil_r. }
  rewrite IH. unfold writeProtocolConst.
  destruct (String.eqb_spec (cp_Name pr) "") as [He|He].
  - by rewrite filter_cons_False by (intros H; by apply H).
  - rewrite filter_cons_True by done. simpl. unfold protocolConstLine.
    by rewrite !append_assoc.
Qed.

(** ** The raw records behind the canonical ones *)

Lemma NoTypeTitle_typeTitle pre :
  Forall NoTypeTitle pre ->
  Forall (fun r => typeTitle (reg_Title r) = false) pre.
Proof.
  intros Hpre. eapply Forall_impl; [done|].
  intros r Hr. by apply typeTitle_false.
Qed.

Lemma escape_FirstTypeRegistry sz icp pre r :
  FirstTypeRegistry icp pre r ->
  icmpv4Parameters_escape sz icp = map (canonICMP sz) (reg_Records r).
Proof.
  intros ([post Hregs] & Hpre & Hr).
  apply (icmpv4Parameters_escape_first sz icp pre r post Hregs).
  - by apply NoTypeTitle_typeTitle.
  - by apply typeTitle_spec.
Qed.

Lemma escape_lookup sz icp pre r i pr :
  FirstTypeRegistry icp pre r -> reg_Records r !! i = Some pr ->
  icmpv4Parameters_escape sz icp !! i = Some (canonICMP sz pr).
Proof.
  intros Hr Hi. rewrite (escape_FirstTypeRegistry sz icp pre r Hr).
  change (map (canonICMP sz) (reg_Records r))
    with (canonICMP sz <$> reg_Records r).
  by rewrite list_lookup_fmap, Hi.
Qed.

Lemma protocol_escape_lookup sz pn i pr :
  pn_Records pn !! i = Some pr ->
  protocolNumbers_escape sz pn !! i = Some (canonProtocol sz pr).
Proof.
  intros Hi. rewrite protocolNumbers_escape_map.
  change (map (canonProtocol sz) (pn_Records pn))
    with (canonProtocol sz <$> pn_Records pn).
  by rewrite list_lookup_fmap, Hi.
Qed.

Lemma canonICMP_kept sz pr :
  ~ Placeholder (rec_Descr pr) ->
  canonICMP sz pr =
    {| OrigDescr := TrimSpace (joinLines (Split (rec_Descr pr) LF));
       Descr := Replace icmpReplacer
                  (TrimSpace (joinLines (Split (rec_Descr pr) LF)));
       Value := fst (Atoi sz (rec_Value pr)) |}.
Proof.
  intros Hp. unfold canonICMP.
  destruct (placeholder (rec_Descr pr)) eqn:Hb; [|done].
  by apply placeholder_spec in Hb.
Qed.

Lemma canonICMP_placeholder sz pr :
  Placeholder (rec_Descr pr) -> canonICMP sz pr = zeroICMP.
Proof.
  intros Hp%placeholder_spec. unfold canonICMP. by rewrite Hp.
Qed.

Section GenProofs.

Context (intSize : IntSize) (mapToLower quoteRunes : string -> string).
Context (xmlDecodeICMP : string -> result icmpv4Parameters).
Context (xmlDecodeProtocol : string -> result protocolNumbers).
Context (httpGet : string -> result Response).
Context (formatSource : string -> result string).

Local Abbreviation parseICMP :=
  (parseICMPv4Parameters intSize mapToLower quoteRunes xmlDecodeICMP).
Local Abbreviation parseProtocol :=
  (parseProtocolNumbers intSize xmlDecodeProtocol).

(** A decoded ICMP registry is printed after what was written before,
    and the parse step reports no error. *)
Lemma parseICMPv4Parameters_ok w r icp :
  xmlDecodeICMP r = Ok icp ->
  parseICMP w r
  = (w +:+ icmpText mapToLower quoteRunes icp
             (icmpv4Parameters_escape intSize icp), None).
Proof.
  intros Hdec. unfold parseICMPv4Parameters, icmpText. rewrite Hdec.
  rewrite foldl_writeICMPEntry, foldl_writeICMPConst.
  by rewrite !append_assoc.
Qed.

Lemma parseICMPv4Parameters_err w r err :
  xmlDecodeICMP r = Err err -> parseICMP w r = (w, Some err).
Proof. intros Hdec. unfold parseICMPv4Parameters. by rewrite Hdec. Qed.

Lemma parseProtocolNumbers_ok w r pn :
  xmlDecodeProtocol r = Ok pn ->
  parseProtocol w r
  = (w +:+ protocolText pn (pseudoIP :: protocolNumbers_escape intSize pn),
     None).
Proof.
  intros Hdec. unfold parseProtocolNumbers, protocolText. rewrite Hdec.
  rewrite foldl_writeProtocolConst. by rewrite !append_assoc.
Qed.

Lemma parseProtocolNumbers_err w r err :
  xmlDecodeProtocol r = Err err -> parseProtocol w r = (w, Some err).
Proof. intros Hdec. unfold parseProtocolNumbers. by rewrite Hdec. Qed.

Local Abbreviation run :=
  (main intSize mapToLower quoteRunes xmlDecodeICMP xmlDecodeProtocol
     httpGet formatSource).

(** *** The driver *)

Lemma exit1_report report :
  ExitCode (exit1 report) = 1 /\ Stdout (exit1 report) = EmptyString
  /\ Stderr (exit1 report) <> EmptyString.
Proof. unfold exit1. simpl. by destruct report. Qed.

(** A run either exits with a report, or it went through every stage and
    prints the formatted text. *)
Lemma main_outcome :
  (exists report, run = exit1 report)
  \/ (exists r1 icp r2 pn b,
        httpGet icmpURL = Ok r1 /\ StatusCode r1 = StatusOK /\
        xmlDecodeICMP (Body r1) = Ok icp /\
        httpGet protocolURL = Ok r2 /\ StatusCode r2 = StatusOK /\
        xmlDecodeProtocol (Body r2) = Ok pn /\
        formatSource (generated intSize mapToLower quoteRunes icp pn) = Ok b
        /\ run = {| Stdout := b; Stderr := EmptyString; ExitCode := 0 |}).
Proof.
  unfold main, registries, fetchAll.
  destruct (httpGet icmpURL) as [r1|e1] eqn:Hg1; [|eauto].
  destruct (Z.eqb_spec (StatusCode r1) StatusOK) as [Hs1|Hs1];
    simpl negb; cbv iota; [|eauto].
  destruct (xmlDecodeICMP (Body r1)) as [icp|e] eqn:Hd1.
  2: { rewrite (parseICMPv4Parameters_err _ _ e Hd1). eauto. }
  rewrite (parseICMPv4Parameters_ok _ _ icp Hd1).
  destruct (httpGet protocolURL) as [r2|e2] eqn:Hg2; [|eauto].
  destruct (Z.eqb_spec (StatusCode r2) StatusOK) as [Hs2|Hs2];
    simpl negb; cbv iota; [|eauto].
  destruct (xmlDecodeProtocol (Body r2)) as [pn|e] eqn:Hd2.
  2: { rewrite (parseProtocolNumbers_err _ _ e Hd2). eauto. }
  rewrite (parseProtocolNumbers_ok _ _ pn Hd2).
  replace ((_ +:+ protocolText _ _) +:+ nl)
    with (generated intSize mapToLower quoteRunes icp pn)
    by (unfold generated; by rewrite !append_assoc).
  destruct (formatSource _) as [b|e] eqn:Hf; [|eauto].
  right. exists r1, icp, r2, pn, b. eauto 10.
Qed.

End GenProofs.

(** ** The examples of the specification *)

Example isis_over_ipv4 :
  canonProtocol Int64
    {| pr_Value := "124"; pr_Name := "ISIS over IPv4";
       pr_Descr := EmptyString |}
  = {| cp_OrigName := "ISIS over IPv4"; cp_Name := "ISIS";
       cp_Descr := EmptyString; cp_Value := 124 |}.
Proof. reflexivity. Qed.

Example manet :
  cp_Name (canonProtocol Int64
             {| pr_Value := "138"; pr_Name := "manet";
                pr_Descr := "MANET Protocols" |})
  = "MANET".
Proof. reflexivity. Qed.

Example value_abc : forall sz, Atoi sz "abc" = (0, Some ErrSyntax).
Proof. by intros []. Qed.

Example trim_space_unicode :
  TrimSpace (String (ascii_of_N 194) (String (ascii_of_N 160) " a b ")
               +:+ nl)
  = "a b".
Proof. reflexivity. Qed.

(** ** Properties of the generator *)

(** C1, as stated, fails: the value text [-5] of an ICMP record gives the
    negative value -5, and the value text [99999999999999999999] of a
    protocol record, for which [strconv.Atoi] reports a range error, gives
    the largest [int] and not zero. *)
Lemma value_negative_or_clamped :
  ~ spec_numericValue Int64 "-5"
      (Value (icmpv4Parameters_escape Int64
                (icmpDocument "ICMP Type Numbers"
                   [ {| rec_Value := "-5"; rec_Descr := "Echo Reply" |} ])
              !!! 0%nat))
  /\ ~ spec_numericValue Int64 "99999999999999999999"
         (cp_Value (protocolNumbers_escape Int64
                      (protocolDocument
                         [ {| pr_Value := "99999999999999999999";
                              pr_Name := "TCP";
                              pr_Descr := "Transmission Control" |} ])
                    !!! 0%nat)).
Proof.
  split; intros [Hpos Hzero].
  - vm_compute in Hpos. by apply Hpos.
  - assert (9223372036854775807 = 0); [|done]. by apply Hzero.
Qed.

(** C1, amended: the numeric value of every protocol record, and of every
    ICMP record that passes the placeholder filter, is what [strconv.Atoi]
    returns for the value text, its error discarded.  That is zero when
    [Atoi] reports a syntax error; for a decimal numeral with or without
    sign it is the signed value of the numeral, negative for a negative
    numeral, when that fits in an [int], and otherwise the largest or the
    smallest [int].  No text is an error of the canonicalizer. *)
Theorem value_is_Atoi (sz : IntSize) :
  (forall icp pre r i pr,
      FirstTypeRegistry icp pre r -> reg_Records r !! i = Some pr ->
      ~ Placeholder (rec_Descr pr) ->
      Value <$> icmpv4Parameters_escape sz icp !! i
      = Some (fst (Atoi sz (rec_Value pr))))
  /\ (forall pn i pr,
         pn_Records pn !! i = Some pr ->
         cp_Value <$> protocolNumbers_escape sz pn !! i
         = Some (fst (Atoi sz (pr_Value pr))))
  /\ (forall text,
         snd (Atoi sz text) = Some ErrSyntax -> fst (Atoi sz text) = 0)
  /\ (forall digits,
         digits <> EmptyString -> allDigits digits = true ->
         let n := decimal digits in
         Atoi sz digits = (if n <=? maxInt sz then (n, None)
                           else (maxInt sz, Some ErrRange))
         /\ Atoi sz (String "+" digits) = Atoi sz digits
         /\ Atoi sz (String "-" digits)
            = (if minInt sz <=? - n then (- n, None)
               else (minInt sz, Some ErrRange))).
Proof.
  repeat split.
  - intros icp pre r i pr Hr Hi Hp.
    rewrite (escape_lookup sz icp pre r i pr Hr Hi).
    by rewrite (canonICMP_kept sz pr Hp).
  - intros pn i pr Hi. by rewrite (protocol_escape_lookup sz pn i pr Hi).
  - apply Atoi_syntax.
  - by apply Atoi_unsigned.
  - by rewrite Atoi_plus, Atoi_unsigned.
  - by apply Atoi_minus.
Qed.

Lemma value_is_Atoi_witness :
  Value <$> icmpv4Parameters_escape Int64
              (icmpDocument "ICMP Type Numbers"
                 [ {| rec_Value := "-5"; rec_Descr := "Echo Reply" |} ])
            !! 0%nat
  = Some (fst (Atoi Int64 "-5"))
  /\ fst (Atoi Int64 "abc") = 0
  /\ Atoi Int32 "-2147483649" = (minInt Int32, Some ErrRange).
Proof.
  split; [|split].
  - eapply (proj1 (value_is_Atoi Int64) _ [] _ 0%nat
              {| rec_Value := "-5"; rec_Descr := "Echo Reply" |}).
    + split; [by exists []|]. split; [constructor|].
      left. by exists "ICMP ", " Numbers".
    + reflexivity.
    + intros Hp%placeholder_spec. vm_compute in Hp. discriminate.
  - apply (proj1 (proj2 (proj2 (value_is_Atoi Int64)))). reflexivity.
  - apply (proj2 (proj2 (proj2 (proj2 (proj2 (value_is_Atoi Int32)))
                                 "2147483649" ltac:(discriminate)
                                 ltac:(reflexivity)))).
Defined.

(** C2, as stated, fails: for the description [IMessageCMP] the canonical
    identifier is [ICMP], while the rules applied one after the other
    remove [Message] and then the [ICMP] that this leaves. *)
Lemma canonical_identifier_not_sequential :
  Descr <$> icmpv4Parameters_escape Int64
              (icmpDocument "ICMP Type Numbers"
                 [ {| rec_Value := "1"; rec_Descr := "IMessageCMP" |} ])
            !! 0%nat
  <> Some (spec_canonicalIdentifier "IMessageCMP").
Proof. vm_compute. discriminate. Qed.

(** C2, amended: for every ICMP record that passes the placeholder filter,
    the canonical identifier is the result of one pass, from left to
    right, over the trimmed, space-joined description: at each offset the
    first rule, in the listed order, whose pattern starts there is applied
    and the pass goes on after the matched text, and a byte where no
    pattern starts is copied.  The result of a rule is not rewritten by
    another rule.  The pass has exactly one result. *)
Theorem canonical_identifier_one_pass
    (sz : IntSize) (icp : icmpv4Parameters) (pre : list icmpv4Registry)
    (r : icmpv4Registry) (i : nat) (pr : icmpv4Record) :
  FirstTypeRegistry icp pre r -> reg_Records r !! i = Some pr ->
  ~ Placeholder (rec_Descr pr) ->
  let s := TrimSpace (joinLines (Split (rec_Descr pr) LF)) in
  exists ident,
    Descr <$> icmpv4Parameters_escape sz icp !! i = Some ident /\
    OnePass icmpReplacer s ident /\
    (forall out, OnePass icmpReplacer s out -> out = ident).
Proof.
  intros Hr Hi Hp s. exists (Replace icmpReplacer s). split; [|split].
  - rewrite (escape_lookup sz icp pre r i pr Hr Hi).
    by rewrite (canonICMP_kept sz pr Hp).
  - apply Replace_OnePass, icmpReplacer_nonempty.
  - intros out. apply OnePass_Replace, icmpReplacer_nonempty.
Qed.

Lemma canonical_identifier_one_pass_witness :
  exists ident,
    Descr <$> icmpv4Parameters_escape Int64
                (icmpDocument "ICMP Type Numbers"
                   [ {| rec_Value := "1"; rec_Descr := "IMessageCMP" |} ])
              !! 0%nat
    = Some ident /\
    OnePass icmpReplacer "IMessageCMP" ident /\
    (forall out, OnePass icmpReplacer "IMessageCMP" out -> out = ident).
Proof.
  eapply (canonical_identifier_one_pass Int64 _ [] _ 0%nat
            {| rec_Value := "1"; rec_Descr := "IMessageCMP" |}).
  - split; [by exists []|]. split; [constructor|].
    left. by exists "ICMP ", " Numbers".
  - reflexivity.
  - intros Hp%placeholder_spec. vm_compute in Hp. discriminate.
Defined.

(** C3, as stated, fails: the title [ICMP TYPE Numbers] contains [type]
    when the case of the letters is ignored, yet the scan passes over it:
    it returns -1 and the canonicalizer returns no record of that
    registry. *)
Lemma upper_case_type_title_not_selected :
  let r := {| reg_Title := "ICMP TYPE Numbers";
              reg_Records := [ {| rec_Value := "3";
                                  rec_Descr := "Destination Unreachable" |} ] |} in
  let icp := {| icp_Title := "ICMP Parameters"; icp_Updated := "2013-04-19";
                icp_Registries := [r] |} in
  Substring "type" (lowerASCII (reg_Title r))
  /\ scanRegistries (icp_Registries icp) 0 <> 0
  /\ icmpv4Parameters_escape Int64 icp
     <> map (canonICMP Int64) (reg_Records r).
Proof.
  split; [by exists "icmp ", " numbers"|]. by vm_compute.
Qed.

(** C3, amended: the scan is linear and stops at the first sub-registry
    whose title contains [Type] or [type], in one of these two spellings;
    that sub-registry is the one whose records are canonicalized. *)
Theorem first_type_title_selected
    (sz : IntSize) (icp : icmpv4Parameters) (pre post : list icmpv4Registry)
    (r : icmpv4Registry) :
  icp_Registries icp = pre ++ r :: post ->
  Forall NoTypeTitle pre ->
  Substring "Type" (reg_Title r) \/ Substring "type" (reg_Title r) ->
  scanRegistries (icp_Registries icp) 0 = Z.of_nat (length pre)
  /\ icmpv4Parameters_escape sz icp = map (canonICMP sz) (reg_Records r).
Proof.
  intros Hregs Hpre Hr. split.
  - rewrite Hregs, scanRegistries_first; [lia| |by apply typeTitle_spec].
    by apply NoTypeTitle_typeTitle.
  - apply (escape_FirstTypeRegistry sz icp pre r). split; [by exists post|done].
Qed.

Lemma first_type_title_selected_witness :
  let codes := {| reg_Title := "Code Fields";
                  reg_Records := [ {| rec_Value := "0";
                                      rec_Descr := "No Code" |} ] |} in
  let types := {| reg_Title := "ICMP Type Numbers";
                  reg_Records := [ {| rec_Value := "8";
                                      rec_Descr := "Echo" |} ] |} in
  let more := {| reg_Title := "Type 3 - Codes"; reg_Records := [] |} in
  let icp := {| icp_Title := "ICMP Parameters"; icp_Updated := "2013-04-19";
                icp_Registries := [codes; types; more] |} in
  scanRegistries (icp_Registries icp) 0 = 1
  /\ icmpv4Parameters_escape Int64 icp
     = [ {| OrigDescr := "Echo"; Descr := "Echo"; Value := 8 |} ].
Proof.
  intros codes types more icp.
  apply (first_type_title_selected Int64 icp [codes] [more] types).
  - reflexivity.
  - constructor; [|constructor].
    split; intros H%Contains_spec; vm_compute in H; discriminate.
  - left. by exists "ICMP ", " Numbers".
Defined.

(** C4, as stated, fails: [EXPERIMENT] is [Experiment] up to case and the
    description [RFC3692-style EXPERIMENT 1] contains it, yet the record is
    canonicalized and printed: the text for the document that has the
    record differs from the text for the document without it. *)
Lemma upper_case_experiment_emitted :
  let pr := {| rec_Value := "253";
               rec_Descr := "RFC3692-style EXPERIMENT 1" |} in
  let emit records :=
    parseICMPv4Parameters Int64 (fun s => s) (fun s => s)
      (fun _ => Ok (icmpDocument "ICMP Type Numbers" records))
      EmptyString EmptyString in
  CaseVariant "Experiment" "EXPERIMENT"
  /\ Substring "EXPERIMENT" (rec_Descr pr)
  /\ emit [pr] <> emit [].
Proof.
  split; [reflexivity|]. split; [by exists "RFC3692-style ", " 1"|].
  vm_compute. discriminate.
Qed.

(** C4, amended: an ICMP record whose description contains [Reserved],
    [Unassigned], [Deprecated], [Experiment] or [experiment], spelled in
    this case, is left out of the constant block and of the lookup table:
    its canonical record is the zero record, and the text printed for the
    document is the text printed for the document without the record. *)
Theorem placeholder_excluded
    (sz : IntSize) (mapToLower quoteRunes : string -> string)
    (xmlDecodeICMP : string -> result icmpv4Parameters)
    (title updated regTitle : string) (pre post : list icmpv4Registry)
    (before after : list icmpv4Record) (pr : icmpv4Record)
    (w body body' : string) :
  let doc records :=
    {| icp_Title := title; icp_Updated := updated;
       icp_Registries :=
         pre ++ {| reg_Title := regTitle; reg_Records := records |} :: post |} in
  Forall NoTypeTitle pre ->
  Substring "Type" regTitle \/ Substring "type" regTitle ->
  Placeholder (rec_Descr pr) ->
  xmlDecodeICMP body = Ok (doc (before ++ pr :: after)) ->
  xmlDecodeICMP body' = Ok (doc (before ++ after)) ->
  icmpv4Parameters_escape sz (doc (before ++ pr :: after)) !! length before
  = Some zeroICMP
  /\ parseICMPv4Parameters sz mapToLower quoteRunes xmlDecodeICMP w body
     = parseICMPv4Parameters sz mapToLower quoteRunes xmlDecodeICMP w body'.
Proof.
  intros doc Hpre Hr Hp Hbody Hbody'.
  assert (forall records,
             icmpv4Parameters_escape sz (doc records)
             = map (canonICMP sz) records) as Hescape.
  { intros records.
    apply (escape_FirstTypeRegistry sz (doc records) pre
             {| reg_Title := regTitle; reg_Records := records |}).
    split; [by exists post|done]. }
  split.
  - rewrite Hescape, map_app. simpl.
    rewrite <- (length_map (canonICMP sz) before), list_lookup_middle by done.
    by rewrite canonICMP_placeholder.
  - rewrite (parseICMPv4Parameters_ok _ _ _ _ _ _ _ Hbody).
    rewrite (parseICMPv4Parameters_ok _ _ _ _ _ _ _ Hbody').
    rewrite !Hescape. unfold icmpText, emittedICMP.
    rewrite !map_app. simpl map. rewrite (canonICMP_placeholder sz pr Hp).
    rewrite !filter_app, filter_cons_False by (intros H; by apply H).
    done.
Qed.

Lemma placeholder_excluded_witness :
  let pr := {| rec_Value := "253";
               rec_Descr := "RFC3692-style Experiment 1" |} in
  let echo := {| rec_Value := "8"; rec_Descr := "Echo" |} in
  let decode body :=
    if String.eqb body "with"
    then Ok (icmpDocument "ICMP Type Numbers" [echo; pr])
    else Ok (icmpDocument "ICMP Type Numbers" [echo]) in
  icmpv4Parameters_escape Int64
    (icmpDocument "ICMP Type Numbers" [echo; pr]) !! 1%nat = Some zeroICMP
  /\ parseICMPv4Parameters Int64 (fun s => s) (fun s => s) decode
       EmptyString "with"
     = parseICMPv4Parameters Int64 (fun s => s) (fun s => s) decode
         EmptyString "without".
Proof.
  intros pr echo decode.
  apply (placeholder_excluded Int64 (fun s => s) (fun s => s) decode
           "ICMP Parameters" "2013-04-19" "ICMP Type Numbers" [] []
           [echo] [] pr EmptyString "with" "without").
  - constructor.
  - left. by exists "ICMP ", " Numbers".
  - right. right. right. left. by exists "RFC3692-style ", " 1".
  - reflexivity.
  - reflexivity.
Defined.

(** C5: whatever the decoded protocol registry holds, the constant block
    that is printed for it starts, right after its opening line, with the
    line of the record named [IP], of value 0 and description
    [IPv4 encapsulation, pseudo protocol number]; the lines of the decoded
    records follow it. *)
Theorem protocol_block_starts_with_IP
    (sz : IntSize) (xmlDecodeProtocol : string -> result protocolNumbers)
    (w body : string) (pn : protocolNumbers) :
  xmlDecodeProtocol body = Ok pn ->
  parseProtocolNumbers sz xmlDecodeProtocol w body
  = (w +:+ protocolHeader pn +:+ "const (" +:+ nl
       +:+ "ianaProtocolIP = 0// IPv4 encapsulation, pseudo protocol number"
       +:+ nl
       +:+ catLines (map protocolConstLine
                       (emittedProtocol (protocolNumbers_escape sz pn)))
       +:+ ")" +:+ nl,
     None).
Proof.
  intros Hdec. rewrite (parseProtocolNumbers_ok _ _ _ _ _ Hdec).
  unfold protocolText, emittedProtocol.
  rewrite filter_cons_True by done. simpl map. simpl catLines.
  change (protocolConstLine pseudoIP)
    with ("ianaProtocolIP = 0// IPv4 encapsulation, pseudo protocol number"
            +:+ nl).
  by rewrite !append_assoc.
Qed.

Lemma protocol_block_starts_with_IP_witness :
  let decode (_ : string) :=
    Ok (protocolDocument
          [ {| pr_Value := "6"; pr_Name := "TCP";
               pr_Descr := "Transmission Control" |} ]) in
  parseProtocolNumbers Int64 decode EmptyString EmptyString
  = ("// Protocol Numbers, Updated: 2013-02-17" +:+ nl
       +:+ "const (" +:+ nl
       +:+ "ianaProtocolIP = 0// IPv4 encapsulation, pseudo protocol number"
       +:+ nl
       +:+ "ianaProtocolTCP = 6// Transmission Control" +:+ nl
       +:+ ")" +:+ nl,
     None).
Proof.
  intros decode.
  exact (protocol_block_starts_with_IP Int64 decode EmptyString EmptyString
           (protocolDocument
              [ {| pr_Value := "6"; pr_Name := "TCP";
                   pr_Descr := "Transmission Control" |} ])
           eq_refl).
Defined.

(** C6: the lookup table that is printed for an ICMP registry has one
    entry for each record that is printed as a constant, these being the
    canonical records with a canonical identifier, in the same order; the
    entry maps the value of the record to its original description in lower
    case.  The record of value [3] and description
    [Destination Unreachable] gets the identifier [DestinationUnreachable],
    the value 3 and the entry that maps 3 to [destination unreachable]. *)
Theorem icmp_lookup_table
    (sz : IntSize) (mapToLower quoteRunes : string -> string)
    (xmlDecodeICMP : string -> result icmpv4Parameters)
    (w body : string) (icp : icmpv4Parameters) :
  xmlDecodeICMP body = Ok icp ->
  let emitted :=
    filter (fun pr => Descr pr <> EmptyString)
      (icmpv4Parameters_escape sz icp) in
  let entry pr :=
    itoa (Value pr) +:+ ": "
      +:+ Quote quoteRunes (ToLower mapToLower (OrigDescr pr))
      +:+ "," +:+ nl in
  let unreachable :=
    {| OrigDescr := "Destination Unreachable";
       Descr := "DestinationUnreachable";
       Value := 3 |} in
  parseICMPv4Parameters sz mapToLower quoteRunes xmlDecodeICMP w body
  = (w +:+ icmpHeader icp +:+ "const (" +:+ nl
       +:+ catLines (map icmpConstLine emitted)
       +:+ ")" +:+ nl +:+ nl
       +:+ icmpHeader icp +:+ "var icmpTypes = map[ICMPType]string{" +:+ nl
       +:+ catLines (map entry emitted)
       +:+ "}" +:+ nl,
     None)
  /\ icmpv4Parameters_escape sz
       (icmpDocument "ICMP Type Numbers"
          [ {| rec_Value := "3"; rec_Descr := "Destination Unreachable" |} ])
     = [unreachable]
  /\ icmpConstLine unreachable
     = "ICMPTypeDestinationUnreachable ICMPType = 3// Destination Unreachable"
         +:+ nl
  /\ entry unreachable
     = "3: " +:+ String DQ ("destination unreachable"
                              +:+ String DQ ("," +:+ nl)).
Proof.
  intros Hdec emitted entry unreachable. split; [|split; [|split]].
  - rewrite (parseICMPv4Parameters_ok _ _ _ _ _ _ _ Hdec).
    reflexivity.
  - by destruct sz.
  - reflexivity.
  - reflexivity.
Qed.

Lemma icmp_lookup_table_witness :
  let decode (_ : string) :=
    Ok (icmpDocument "ICMP Type Numbers"
          [ {| rec_Value := "3";
               rec_Descr := "Destination Unreachable" |} ]) in
  fst (parseICMPv4Parameters Int64 (fun s => s) (fun s => s) decode
         EmptyString EmptyString)
  = "// ICMP Parameters, Updated: 2013-04-19" +:+ nl
      +:+ "const (" +:+ nl
      +:+ "ICMPTypeDestinationUnreachable ICMPType = 3// Destination Unreachable"
      +:+ nl
      +:+ ")" +:+ nl +:+ nl
      +:+ "// ICMP Parameters, Updated: 2013-04-19" +:+ nl
      +:+ "var icmpTypes = map[ICMPType]string{" +:+ nl
      +:+ "3: " +:+ String DQ ("destination unreachable"
                                 +:+ String DQ ("," +:+ nl))
      +:+ "}" +:+ nl.
Proof.
  intros decode.
  exact (f_equal fst
           (proj1 (icmp_lookup_table Int64 (fun s => s) (fun s => s) decode
                     EmptyString EmptyString
                     (icmpDocument "ICMP Type Numbers"
                        [ {| rec_Value := "3";
                             rec_Descr := "Destination Unreachable" |} ])
                     eq_refl))).
Defined.

(** C7: for both registries the canonicalizer keeps one canonical record
    for each raw record, so that nothing is removed there: an ICMP record
    that the placeholder filter stops is left as the zero record at its
    index.  It is the emitter that drops a record: the lines that are printed
    are those of the canonical records whose identifier, or name, is not
    empty, in their order. *)
Theorem empty_identifier_dropped_at_emission
    (sz : IntSize) (mapToLower quoteRunes : string -> string)
    (xmlDecodeICMP : string -> result icmpv4Parameters)
    (xmlDecodeProtocol : string -> result protocolNumbers) :
  (forall icp pre r,
      FirstTypeRegistry icp pre r ->
      length (icmpv4Parameters_escape sz icp) = length (reg_Records r)
      /\ forall i pr,
           reg_Records r !! i = Some pr -> Placeholder (rec_Descr pr) ->
           icmpv4Parameters_escape sz icp !! i = Some zeroICMP)
  /\ (forall pn,
         length (protocolNumbers_escape sz pn) = length (pn_Records pn))
  /\ (forall w body icp,
         xmlDecodeICMP body = Ok icp ->
         let emitted :=
           filter (fun pr => Descr pr <> EmptyString)
             (icmpv4Parameters_escape sz icp) in
         parseICMPv4Parameters sz mapToLower quoteRunes xmlDecodeICMP w body
         = (w +:+ icmpHeader icp +:+ "const (" +:+ nl
              +:+ catLines (map icmpConstLine emitted)
              +:+ ")" +:+ nl +:+ nl
              +:+ icmpHeader icp
              +:+ "var icmpTypes = map[ICMPType]string{" +:+ nl
              +:+ catLines (map (icmpEntryLine mapToLower quoteRunes) emitted)
              +:+ "}" +:+ nl,
            None))
  /\ (forall w body pn,
         xmlDecodeProtocol body = Ok pn ->
         let emitted :=
           filter (fun pr => cp_Name pr <> EmptyString)
             (pseudoIP :: protocolNumbers_escape sz pn) in
         parseProtocolNumbers sz xmlDecodeProtocol w body
         = (w +:+ protocolHeader pn +:+ "const (" +:+ nl
              +:+ catLines (map protocolConstLine emitted)
              +:+ ")" +:+ nl,
            None)).
Proof.
  split; [|split; [|split]].
  - intros icp pre r Hr. split.
    + by rewrite (escape_FirstTypeRegistry sz icp pre r Hr), length_map.
    + intros i pr Hi Hp. rewrite (escape_lookup sz icp pre r i pr Hr Hi).
      by rewrite canonICMP_placeholder.
  - intros pn. by rewrite protocolNumbers_escape_map, length_map.
  - intros w body icp Hdec emitted.
    by rewrite (parseICMPv4Parameters_ok _ _ _ _ _ _ _ Hdec).
  - intros w body pn Hdec emitted.
    by rewrite (parseProtocolNumbers_ok _ _ _ _ _ Hdec).
Qed.

Lemma empty_identifier_dropped_at_emission_witness :
  let records :=
    [ {| rec_Value := "1"; rec_Descr := "Unassigned" |};
      {| rec_Value := "8"; rec_Descr := "Echo" |};
      {| rec_Value := "9"; rec_Descr := " - " |} ] in
  let icp := icmpDocument "ICMP Type Numbers" records in
  let pn :=
    protocolDocument
      [ {| pr_Value := "255"; pr_Name := EmptyString;
           pr_Descr := "Reserved" |} ] in
  (length (icmpv4Parameters_escape Int64 icp) = 3%nat
   /\ icmpv4Parameters_escape Int64 icp !! 0%nat = Some zeroICMP)
  /\ length (protocolNumbers_escape Int64 pn) = 1%nat
  /\ fst (parseICMPv4Parameters Int64 (fun s => s) (fun s => s)
            (fun _ => Ok icp) EmptyString EmptyString)
     = "// ICMP Parameters, Updated: 2013-04-19" +:+ nl
         +:+ "const (" +:+ nl
         +:+ "ICMPTypeEcho ICMPType = 8// Echo" +:+ nl
         +:+ ")" +:+ nl +:+ nl
         +:+ "// ICMP Parameters, Updated: 2013-04-19" +:+ nl
         +:+ "var icmpTypes = map[ICMPType]string{" +:+ nl
         +:+ "8: " +:+ String DQ ("echo" +:+ String DQ ("," +:+ nl))
         +:+ "}" +:+ nl
  /\ fst (parseProtocolNumbers Int64 (fun _ => Ok pn) EmptyString EmptyString)
     = "// Protocol Numbers, Updated: 2013-02-17" +:+ nl
         +:+ "const (" +:+ nl
         +:+ "ianaProtocolIP = 0// IPv4 encapsulation, pseudo protocol number"
         +:+ nl
         +:+ ")" +:+ nl.
Proof.
  intros records icp pn.
  pose proof (empty_identifier_dropped_at_emission Int64 (fun s => s)
                (fun s => s) (fun _ => Ok icp) (fun _ => Ok pn))
    as (Hicmp & Hlen & Htext & Hptext).
  split; [|split; [|split]].
  - destruct (Hicmp icp [] {| reg_Title := "ICMP Type Numbers";
                              reg_Records := records |}) as [Hl Hz].
    { split; [by exists []|]. split; [constructor|].
      left. by exists "ICMP ", " Numbers". }
    split; [exact Hl|].
    apply (Hz 0%nat {| rec_Value := "1"; rec_Descr := "Unassigned" |});
      [reflexivity|].
    right. left. by exists EmptyString, EmptyString.
  - exact (Hlen pn).
  - exact (f_equal fst (Htext EmptyString EmptyString icp eq_refl)).
  - exact (f_equal fst (Hptext EmptyString EmptyString pn eq_refl)).
Defined.

(** A failing run prints the report of its first error. *)
Lemma main_first_error
    (sz : IntSize) (mapToLower quoteRunes : string -> string)
    (xmlDecodeICMP : string -> result icmpv4Parameters)
    (xmlDecodeProtocol : string -> result protocolNumbers)
    (httpGet : string -> result Response)
    (formatSource : string -> result string) :
  let run := main sz mapToLower quoteRunes xmlDecodeICMP xmlDecodeProtocol
               httpGet formatSource in
  (exists report,
      FirstError sz mapToLower quoteRunes xmlDecodeICMP xmlDecodeProtocol
        httpGet formatSource report
      /\ run = exit1 report)
  \/ (exists b, run = {| Stdout := b; Stderr := EmptyString; ExitCode := 0 |}).
Proof.
  intros run. subst run. unfold main, registries, fetchAll, FirstError.
  destruct (httpGet icmpURL) as [r1|e1] eqn:Hg1.
  2: { left. exists e1. split; [|done]. left. by left. }
  destruct (Z.eqb_spec (StatusCode r1) StatusOK) as [Hs1|Hs1];
    simpl negb; cbv iota.
  2: { left. eexists. split; [|done]. left. right. left. by exists r1. }
  destruct (xmlDecodeICMP (Body r1)) as [icp|e] eqn:Hd1.
  2: { rewrite (parseICMPv4Parameters_err _ _ _ _ _ _ e Hd1).
       left. exists e. split; [|done]. left. right. right. by exists r1. }
  rewrite (parseICMPv4Parameters_ok _ _ _ _ _ _ icp Hd1).
  assert (StageOK httpGet xmlDecodeICMP icmpURL r1 icp) as Hok1 by done.
  destruct (httpGet protocolURL) as [r2|e2] eqn:Hg2.
  2: { left. exists e2. split; [|done]. right. exists r1, icp.
       split; [done|]. left. by left. }
  destruct (Z.eqb_spec (StatusCode r2) StatusOK) as [Hs2|Hs2];
    simpl negb; cbv iota.
  2: { left. eexists. split; [|done]. right. exists r1, icp.
       split; [done|]. left. right. left. by exists r2. }
  destruct (xmlDecodeProtocol (Body r2)) as [pn|e] eqn:Hd2.
  2: { rewrite (parseProtocolNumbers_err _ _ _ _ e Hd2).
       left. exists e. split; [|done]. right. exists r1, icp.
       split; [done|]. left. right. right. by exists r2. }
  rewrite (parseProtocolNumbers_ok _ _ _ _ pn Hd2).
  replace ((_ +:+ protocolText _ _) +:+ nl)
    with (generated sz mapToLower quoteRunes icp pn)
    by (unfold generated; by rewrite !append_assoc).
  destruct (formatSource _) as [b|e] eqn:Hf; [right; by exists b|].
  left. exists e. split; [|done]. right. exists r1, icp. split; [done|].
  right. by exists r2, pn.
Qed.

(** C8: when a fetch fails, a response has a status other than 200, a
    document does not decode, or the generated text does not format, the
    process exits with status 1 and writes nothing to its standard output:
    what was generated so far is dropped.  Its standard error receives the
    report of the first error of the run, in the order of the stages,
    followed by a line feed, and nothing else: the text of the error, or
    the line that names the status and the address. *)
Theorem main_fails_fast
    (sz : IntSize) (mapToLower quoteRunes : string -> string)
    (xmlDecodeICMP : string -> result icmpv4Parameters)
    (xmlDecodeProtocol : string -> result protocolNumbers)
    (httpGet : string -> result Response)
    (formatSource : string -> result string) :
  FetchError httpGet icmpURL \/ FetchError httpGet protocolURL \/
  StatusError httpGet icmpURL \/ StatusError httpGet protocolURL \/
  DecodeError httpGet xmlDecodeICMP icmpURL \/
  DecodeError httpGet xmlDecodeProtocol protocolURL \/
  FormatError sz mapToLower quoteRunes xmlDecodeICMP xmlDecodeProtocol
    httpGet formatSource ->
  let p := main sz mapToLower quoteRunes xmlDecodeICMP xmlDecodeProtocol
             httpGet formatSource in
  ExitCode p = 1 /\ Stdout p = EmptyString /\
  exists report,
    FirstError sz mapToLower quoteRunes xmlDecodeICMP xmlDecodeProtocol
      httpGet formatSource report
    /\ Stderr p = report +:+ nl.
Proof.
  intros Herr p.
  destruct (main_outcome sz mapToLower quoteRunes xmlDecodeICMP
              xmlDecodeProtocol httpGet formatSource)
    as [[report0 Hrun0]|(r1 & icp & r2 & pn & b & Hg1 & Hs1 & Hd1 & Hg2 & Hs2
                         & Hd2 & Hf & _)].
  - destruct (main_first_error sz mapToLower quoteRunes xmlDecodeICMP
                xmlDecodeProtocol httpGet formatSource)
      as [(report & Hfirst & Hrun)|[b Hrun]].
    + subst p. rewrite Hrun. repeat split. by exists report.
    + rewrite Hrun0 in Hrun. discriminate.
  - exfalso.
    destruct Herr as [[e He]|[[e He]|[(r & Hr & Hs)|[(r & Hr & Hs)|
      [(r & e & Hr & Hd)|[(r & e & Hr & Hd)|
      (r1' & icp' & r2' & pn' & e & Hg1' & Hd1' & Hg2' & Hd2' & Hf')]]]]]];
      congruence.
Qed.

Lemma main_fails_fast_witness :
  let decodeICMP (_ : string) :=
    Ok (icmpDocument "ICMP Type Numbers"
          [ {| rec_Value := "8"; rec_Descr := "Echo" |} ]) in
  let decodeProtocol (_ : string) : result protocolNumbers :=
    Err "XML syntax error on line 1: unexpected EOF" in
  let get (_ : string) := Ok {| StatusCode := 200; Body := EmptyString |} in
  let p := main Int64 (fun s => s) (fun s => s) decodeICMP decodeProtocol
             get (fun src => Ok src) in
  ExitCode p = 1 /\ Stdout p = EmptyString
  /\ Stderr p = "XML syntax error on line 1: unexpected EOF" +:+ nl.
Proof.
  intros decodeICMP decodeProtocol get.
  destruct (main_fails_fast Int64 (fun s => s) (fun s => s) decodeICMP
              decodeProtocol get (fun src => Ok src))
    as (Hexit & Hout & report & Hfirst & Herr).
  { do 5 right. left.
    exists {| StatusCode := 200; Body := EmptyString |},
      "XML syntax error on line 1: unexpected EOF".
    split; reflexivity. }
  intros p. split; [exact Hexit|]. split; [exact Hout|].
  fold p in Herr. rewrite Herr. f_equal.
  destruct Hfirst
    as [[Hg|[(r & Hg & Hs & _)|(r & _ & _ & Hd)]]
       |(r1 & icp & _ & [[Hg|[(r & Hg & Hs & _)|(r & _ & _ & Hd)]]
                        |(r2 & pn & (_ & _ & Hd) & _)])];
    try discriminate.
  - injection Hg as <-. by destruct Hs.
  - injection Hg as <-. by destruct Hs.
  - by injection Hd.
Defined.

(** C9: when no sub-registry of a decoded ICMP document has a title that
    contains [Type] or [type], the canonicalizer returns no record, and the
    parse step prints the two headers with an empty constant block and an
    empty lookup table and reports no error. *)
Theorem no_type_registry_empty_output
    (sz : IntSize) (mapToLower quoteRunes : string -> string)
    (xmlDecodeICMP : string -> result icmpv4Parameters)
    (w body : string) (icp : icmpv4Parameters) :
  xmlDecodeICMP body = Ok icp ->
  Forall NoTypeTitle (icp_Registries icp) ->
  icmpv4Parameters_escape sz icp = []
  /\ parseICMPv4Parameters sz mapToLower quoteRunes xmlDecodeICMP w body
     = (w +:+ icmpHeader icp +:+ "const (" +:+ nl
          +:+ ")" +:+ nl +:+ nl
          +:+ icmpHeader icp +:+ "var icmpTypes = map[ICMPType]string{" +:+ nl
          +:+ "}" +:+ nl,
        None).
Proof.
  intros Hdec Hnone.
  assert (icmpv4Parameters_escape sz icp = []) as Hescape.
  { by apply icmpv4Parameters_escape_none, NoTypeTitle_typeTitle. }
  split; [done|].
  rewrite (parseICMPv4Parameters_ok _ _ _ _ _ _ _ Hdec), Hescape.
  reflexivity.
Qed.

Lemma no_type_registry_empty_output_witness :
  let icp :=
    icmpDocument "Code Fields"
      [ {| rec_Value := "0"; rec_Descr := "No Code" |} ] in
  icmpv4Parameters_escape Int64 icp = []
  /\ parseICMPv4Parameters Int64 (fun s => s) (fun s => s) (fun _ => Ok icp)
       EmptyString EmptyString
     = ("// ICMP Parameters, Updated: 2013-04-19" +:+ nl
          +:+ "const (" +:+ nl
          +:+ ")" +:+ nl +:+ nl
          +:+ "// ICMP Parameters, Updated: 2013-04-19" +:+ nl
          +:+ "var icmpTypes = map[ICMPType]string{" +:+ nl
          +:+ "}" +:+ nl,
        None).
Proof.
  intros icp.
  apply (no_type_registry_empty_output Int64 (fun s => s) (fun s => s)
           (fun _ => Ok icp) EmptyString EmptyString icp).
  - reflexivity.
  - constructor; [|constructor].
    split; intros H%Contains_spec; vm_compute in H; discriminate.
Defined.

(** C10: the two exceptions of the protocol canonicalizer compare the name
    as it was decoded, while the replacer works on the trimmed name.  A
    record whose name is [manet] or [ISIS over IPv4] only once the white
    space around it is trimmed does not get the exception: its canonical
    name is what the replacer makes of the trimmed name, which is [manet],
    and not [MANET], in the first case and [ISISoverIPv4] in the second. *)
Theorem exception_needs_untrimmed_name
    (sz : IntSize) (pn : protocolNumbers) (i : nat) (pr : protocolRecord) :
  pn_Records pn !! i = Some pr ->
  pr_Name pr <> TrimSpace (pr_Name pr) ->
  TrimSpace (pr_Name pr) = "manet"
  \/ TrimSpace (pr_Name pr) = "ISIS over IPv4" ->
  let name := cp_Name <$> protocolNumbers_escape sz pn !! i in
  name = Some (Replace protocolReplacer (TrimSpace (pr_Name pr)))
  /\ (TrimSpace (pr_Name pr) = "manet" -> name = Some "manet")
  /\ (TrimSpace (pr_Name pr) = "ISIS over IPv4"
      -> name = Some "ISISoverIPv4").
Proof.
  intros Hi Hraw Htrim name.
  assert (name = Some (Replace protocolReplacer (TrimSpace (pr_Name pr))))
    as Hname.
  { subst name. rewrite (protocol_escape_lookup sz pn i pr Hi). simpl.
    destruct (String.eqb_spec (pr_Name pr) "ISIS over IPv4") as [He|_].
    { exfalso. apply Hraw. by rewrite He. }
    destruct (String.eqb_spec (pr_Name pr) "manet") as [He|_]; [|done].
    exfalso. apply Hraw. by rewrite He. }
  split; [done|]. split; intros He; rewrite Hname, He; reflexivity.
Qed.

Lemma exception_needs_untrimmed_name_witness :
  cp_Name <$> protocolNumbers_escape Int64
                (protocolDocument
                   [ {| pr_Value := "138"; pr_Name := " manet ";
                        pr_Descr := "MANET Protocols" |} ])
              !! 0%nat
  = Some "manet".
Proof.
  refine (proj1 (proj2 (exception_needs_untrimmed_name Int64
                          (protocolDocument
                             [ {| pr_Value := "138"; pr_Name := " manet ";
                                  pr_Descr := "MANET Protocols" |} ])
                          0%nat
                          {| pr_Value := "138"; pr_Name := " manet ";
                             pr_Descr := "MANET Protocols" |}
                          eq_refl _ (or_introl eq_refl))) eq_refl).
  vm_compute. discriminate.
Defined.

(** ** Further properties: occurrences in a text *)

Lemma Substring_cons sub d t : Substring sub t -> Substring sub (String d t).
Proof.
  intros (pre & post & ->). by exists (String d pre), post.
Qed.

Lemma Substring_app_r sub a b : Substring sub b -> Substring sub (a +:+ b).
Proof.
  intros Hb. induction a as [|c a IH]; [done|].
  rewrite append_cons. by apply Substring_cons.
Qed.

Lemma Substring_app_l sub a b : Substring sub a -> Substring sub (a +:+ b).
Proof.
  intros (pre & post & ->). exists pre, (post +:+ b).
  by rewrite !append_assoc.
Qed.

Lemma Substring_trans a b c : Substring a b -> Substring b c -> Substring a c.
Proof.
  intros (p1 & q1 & ->) (p2 & q2 & ->). exists (p2 +:+ p1), (q1 +:+ q2).
  by rewrite !append_assoc.
Qed.

Lemma Substring_prefix a b s : Substring (a +:+ b) s -> Substring a s.
Proof.
  intros (pre & post & ->). exists pre, (b +:+ post).
  by rewrite !append_assoc.
Qed.

Lemma Substring_byte_nil c : ~ Substring (String c EmptyString) EmptyString.
Proof. intros ([|d pre] & post & H); discriminate. Qed.

Lemma Substring_byte_cons c d t :
  Substring (String c EmptyString) (String d t)
  <-> d = c \/ Substring (String c EmptyString) t.
Proof.
  split.
  - intros ([|e pre] & post & H).
    + left. injection H as ->. done.
    + right. rewrite append_cons in H. injection H as _ ->. by exists pre, post.
  - intros [->|Ht]; [by exists EmptyString, t|by apply Substring_cons].
Qed.

Lemma Substring_byte_app c a b :
  Substring (String c EmptyString) (a +:+ b)
  <-> Substring (String c EmptyString) a \/ Substring (String c EmptyString) b.
Proof.
  split.
  - induction a as [|d a IH]; [by right|].
    rewrite append_cons, !Substring_byte_cons. tauto.
  - intros [Ha|Hb]; [by apply Substring_app_l|by apply Substring_app_r].
Qed.

Lemma StartsWith_Substring s p : StartsWith s p -> Substring p s.
Proof. intros [t ->]. by exists EmptyString, t. Qed.

(** ** Further properties: the replacers *)

Lemma FirstMatch_In oldnew s old new :
  FirstMatch oldnew s old new -> (old, new) ∈ oldnew.
Proof.
  intros (before & after & -> & _). apply elem_of_app. right. by left.
Qed.

(** A byte that has a rule of its own, and that no replacement text
    contains, does not come out of the pass. *)
Lemma OnePass_no_byte oldnew c new0 s out :
  (String c EmptyString, new0) ∈ oldnew ->
  Forall (fun p => ~ Substring (String c EmptyString) (snd p)) oldnew ->
  OnePass oldnew s out -> ~ Substring (String c EmptyString) out.
Proof.
  intros Hrule Hnew.
  induction 1 as [|old new rest out Hfirst _ IH|d rest out Hno _ IH].
  - apply Substring_byte_nil.
  - rewrite Substring_byte_app. intros [Hc|Hc]; [|by apply IH].
    apply FirstMatch_In in Hfirst.
    rewrite Forall_forall in Hnew. by apply (Hnew _ Hfirst).
  - rewrite Substring_byte_cons. intros [->|Hc]; [|by apply IH].
    rewrite Forall_forall in Hno. apply (Hno _ Hrule). by exists rest.
Qed.

Lemma Replace_no_byte oldnew c new0 s :
  Forall (fun p => fst p <> EmptyString) oldnew ->
  (String c EmptyString, new0) ∈ oldnew ->
  Forall (fun p => ~ Substring (String c EmptyString) (snd p)) oldnew ->
  ~ Substring (String c EmptyString) (Replace oldnew s).
Proof.
  intros Hne Hrule Hnew.
  by apply (OnePass_no_byte oldnew c new0 s), Replace_OnePass.
Qed.

(** A text in which no pattern occurs goes through the pass unchanged. *)
Lemma Replace_no_pattern oldnew s :
  Forall (fun p => ~ Substring (fst p) s) oldnew -> Replace oldnew s = s.
Proof.
  induction s as [|c t IH]; intros Hno; [done|].
  rewrite Replace_copy.
  - rewrite IH; [done|]. eapply Forall_impl; [done|].
    intros p Hp Ht. apply Hp. by apply Substring_cons.
  - apply lookup_no_match. eapply Forall_impl; [done|].
    intros p Hp Hs. by apply Hp, StartsWith_Substring.
Qed.

(** When no replacement text is longer than its pattern, the pass does not
    lengthen the text. *)
Lemma OnePass_length oldnew s out :
  Forall (fun p => (String.length (snd p) <= String.length (fst p))%nat)
    oldnew ->
  OnePass oldnew s out -> (String.length out <= String.length s)%nat.
Proof.
  intros Hlen.
  induction 1 as [|old new rest out Hfirst _ IH|d rest out Hno _ IH];
    [done| |simpl; lia].
  apply FirstMatch_In in Hfirst. rewrite Forall_forall in Hlen.
  specialize (Hlen _ Hfirst). simpl in Hlen. rewrite !append_length. lia.
Qed.

Lemma protocolReplacer_nonempty :
  Forall (fun p => fst p <> EmptyString) protocolReplacer.
Proof. repeat constructor; done. Qed.

Lemma no_byte_in_literal c lit :
  Contains lit (String c EmptyString) = false ->
  ~ Substring (String c EmptyString) lit.
Proof. apply Contains_false. Qed.

(** The separators have a rule of their own in both replacers, and the
    replacement texts have no separator. *)
Lemma separators_cases sep :
  sep ∈ separators ->
  exists c, sep = String c EmptyString /\
    (String c EmptyString = "+" \/ String c EmptyString = "-" \/
     String c EmptyString = "/" \/ String c EmptyString = "." \/
     String c EmptyString = " ").
Proof.
  unfold separators. rewrite !elem_of_cons, elem_of_nil.
  intros [->|[->|[->|[->|[->|[]]]]]]; eexists; split; eauto 6.
Qed.

Lemma icmpReplacer_no_separator sep s :
  sep ∈ separators -> ~ Substring sep (Replace icmpReplacer s).
Proof.
  intros (c & -> & Hc)%separators_cases.
  assert (exists new0, (String c EmptyString, new0) ∈ icmpReplacer) as [n0 Hrule].
  { destruct Hc as [->|[->|[->|[->| ->]]]]; eexists; unfold icmpReplacer;
      rewrite !elem_of_cons; eauto 10. }
  apply (Replace_no_byte icmpReplacer c n0 s icmpReplacer_nonempty Hrule).
  destruct Hc as [Hc|[Hc|[Hc|[Hc|Hc]]]]; injection Hc as ->;
    repeat constructor; apply no_byte_in_literal; reflexivity.
Qed.

Lemma protocolReplacer_no_separator sep s :
  sep ∈ separators -> ~ Substring sep (Replace protocolReplacer s).
Proof.
  intros (c & -> & Hc)%separators_cases.
  assert (exists new0, (String c EmptyString, new0) ∈ protocolReplacer)
    as [n0 Hrule].
  { destruct Hc as [->|[->|[->|[->| ->]]]]; eexists; unfold protocolReplacer;
      rewrite !elem_of_cons; eauto 10. }
  apply (Replace_no_byte protocolReplacer c n0 s protocolReplacer_nonempty
           Hrule).
  destruct Hc as [Hc|[Hc|[Hc|[Hc|Hc]]]]; injection Hc as ->;
    repeat constructor; apply no_byte_in_literal; reflexivity.
Qed.

(** Every pattern of the protocol replacer has a separator in it. *)
Lemma protocolReplacer_clean s :
  (forall sep, sep ∈ separators -> ~ Substring sep s) ->
  Replace protocolReplacer s = s.
Proof.
  intros Hclean. apply Replace_no_pattern.
  assert (~ Substring "+" s /\ ~ Substring "-" s /\ ~ Substring "/" s /\
          ~ Substring "." s /\ ~ Substring " " s) as (Hp & Hm & Hs & Hd & Hb).
  { repeat split; apply Hclean; unfold separators; rewrite !elem_of_cons;
      eauto 10. }
  repeat constructor; simpl; try done;
    intros H; apply Hm; by apply (Substring_prefix "-" _ s) in H.
Qed.

(** ** Further properties: the scan, trimming and joining *)

Lemma scanRegistries_cases rs i :
  scanRegistries rs i = -1
  /\ Forall (fun r => typeTitle (reg_Title r) = false) rs
  \/ exists pre r post,
       rs = pre ++ r :: post /\
       Forall (fun r' => typeTitle (reg_Title r') = false) pre /\
       typeTitle (reg_Title r) = true /\
       scanRegistries rs i = i + Z.of_nat (length pre).
Proof.
  revert i. induction rs as [|r rs IH]; intros i; [by left|].
  simpl. destruct (typeTitle (reg_Title r)) eqn:Hr.
  - right. exists [], r, rs. repeat split; [done..|simpl; lia].
  - destruct (IH (i + 1)) as [[Hs Hall]|(pre & r' & post & -> & Hpre & Hr' & Hs)].
    + left. split; [done|]. by constructor.
    + right. exists (r :: pre), r', post.
      repeat split; [by constructor|done|]. rewrite Hs. simpl length. lia.
Qed.

Lemma rev_app_append s acc : String.rev_app s acc = String.rev s +:+ acc.
Proof.
  unfold String.rev. revert acc.
  induction s as [|c s IH]; intros acc; [done|]. simpl.
  rewrite (IH (String c acc)), (IH (String c EmptyString)).
  by rewrite append_assoc.
Qed.

Lemma rev_cons c s :
  String.rev (String c s) = String.rev s +:+ String c EmptyString.
Proof. unfold String.rev at 1. simpl. apply rev_app_append. Qed.

Lemma rev_append a b :
  String.rev (a +:+ b) = String.rev b +:+ String.rev a.
Proof.
  induction a as [|c a IH]; [by rewrite append_nil_r|].
  by rewrite append_cons, !rev_cons, IH, append_assoc.
Qed.

Lemma rev_involutive s : String.rev (String.rev s) = s.
Proof.
  induction s as [|c s IH]; [done|]. by rewrite rev_cons, rev_append, IH.
Qed.

(** Trimming on the left drops a prefix. *)
Lemma trimLeftSpace_suffix s : exists p, s = p +:+ trimLeftSpace s.
Proof.
  remember (String.length s) as n eqn:Hn. revert s Hn.
  induction n as [n IH] using lt_wf_ind. intros s Hn.
  assert (forall p t, s = p +:+ t -> (String.length t < n)%nat ->
                      exists q, s = q +:+ trimLeftSpace t) as Hrec.
  { intros p t -> Ht. destruct (IH _ Ht t eq_refl) as [q Hq].
    exists (p +:+ q). by rewrite append_assoc, <- Hq. }
  destruct s as [|c1 t1]; [by exists EmptyString|]. cbn [trimLeftSpace].
  destruct (isSpace1 c1).
  { apply (Hrec (String c1 EmptyString)); [done|subst n; simpl; lia]. }
  destruct t1 as [|c2 t2]; [by exists EmptyString|].
  destruct (isSpace2 c1 c2).
  { apply (Hrec (String c1 (String c2 EmptyString)));
      [done|subst n; simpl; lia]. }
  destruct t2 as [|c3 t3]; [by exists EmptyString|].
  destruct (isSpace3 c1 c2 c3); [|by exists EmptyString].
  apply (Hrec (String c1 (String c2 (String c3 EmptyString))));
    [done|subst n; simpl; lia].
Qed.

Lemma trimLeftSpaceRev_suffix s : exists p, s = p +:+ trimLeftSpaceRev s.
Proof.
  remember (String.length s) as n eqn:Hn. revert s Hn.
  induction n as [n IH] using lt_wf_ind. intros s Hn.
  assert (forall p t, s = p +:+ t -> (String.length t < n)%nat ->
                      exists q, s = q +:+ trimLeftSpaceRev t) as Hrec.
  { intros p t -> Ht. destruct (IH _ Ht t eq_refl) as [q Hq].
    exists (p +:+ q). by rewrite append_assoc, <- Hq. }
  destruct s as [|c1 t1]; [by exists EmptyString|]. cbn [trimLeftSpaceRev].
  destruct (isSpace1 c1).
  { apply (Hrec (String c1 EmptyString)); [done|subst n; simpl; lia]. }
  destruct t1 as [|c2 t2]; [by exists EmptyString|].
  destruct (isSpace2 c2 c1).
  { apply (Hrec (String c1 (String c2 EmptyString)));
      [done|subst n; simpl; lia]. }
  destruct t2 as [|c3 t3]; [by exists EmptyString|].
  destruct (isSpace3 c3 c2 c1); [|by exists EmptyString].
  apply (Hrec (String c1 (String c2 (String c3 EmptyString))));
    [done|subst n; simpl; lia].
Qed.

(** [strings.TrimSpace] returns a part of its argument. *)
Lemma TrimSpace_part s : exists p q, s = p +:+ TrimSpace s +:+ q.
Proof.
  unfold TrimSpace, trimRightSpace.
  destruct (trimLeftSpace_suffix s) as [p Hp].
  destruct (trimLeftSpaceRev_suffix (String.rev (trimLeftSpace s))) as [q Hq].
  exists p, (String.rev q). rewrite <- rev_append, <- Hq, rev_involutive.
  exact Hp.
Qed.

Lemma TrimSpace_Substring sub s :
  Substring sub (TrimSpace s) -> Substring sub s.
Proof.
  intros Hsub. apply (Substring_trans _ _ _ Hsub).
  destruct (TrimSpace_part s) as (p & q & Hs). by exists p, q.
Qed.

Lemma TrimSpace_length s : (String.length (TrimSpace s) <= String.length s)%nat.
Proof.
  destruct (TrimSpace_part s) as (p & q & Hs). rewrite Hs at 2.
  rewrite !append_length. lia.
Qed.

Lemma Split_nonempty s sep : Split s sep <> [].
Proof.
  destruct s as [|c t]; simpl; [done|].
  destruct (Ascii.eqb c sep); [done|]. by destruct (Split t sep).
Qed.

(** No element of a split has the separator in it. *)
Lemma Split_no_sep s sep :
  Forall (fun x => ~ Substring (String sep EmptyString) x) (Split s sep).
Proof.
  induction s as [|c t IH]; simpl.
  { constructor; [apply Substring_byte_nil|done]. }
  destruct (Ascii.eqb_spec c sep) as [->|Hc].
  { constructor; [apply Substring_byte_nil|done]. }
  destruct (Split t sep) as [|w ws].
  - constructor; [|done]. rewrite Substring_byte_cons.
    intros [?|?%Substring_byte_nil]; done.
  - apply Forall_cons in IH as [Hw Hws]. constructor; [|done].
    rewrite Substring_byte_cons. intros [?|?]; done.
Qed.

(** A text without the separator is the only element of its split. *)
Lemma Split_absent s sep :
  ~ Substring (String sep EmptyString) s -> Split s sep = [s].
Proof.
  induction s as [|c t IH]; [done|]. rewrite Substring_byte_cons.
  intros Hno. simpl. destruct (Ascii.eqb_spec c sep) as [->|_]; [tauto|].
  rewrite IH; tauto.
Qed.

Lemma Join_no_byte c ss sep :
  Forall (fun x => ~ Substring (String c EmptyString) x) ss ->
  ~ Substring (String c EmptyString) sep ->
  ~ Substring (String c EmptyString) (Join ss sep).
Proof.
  intros Hss Hsep. induction Hss as [|x ss Hx Hss IH]; simpl.
  { apply Substring_byte_nil. }
  destruct ss as [|y ss]; [done|].
  rewrite !Substring_byte_app. tauto.
Qed.

Lemma joinLines_Join ss : ss <> [] -> joinLines ss = Join ss " ".
Proof.
  unfold joinLines. destruct ss as [|x [|y ss]]; done.
Qed.

(** Splitting at a byte and joining with another one is the replacement
    of the first byte by the second. *)
Lemma Join_Split s a b :
  Join (Split s a) (String b EmptyString) = replaceByte a b s.
Proof.
  induction s as [|c t IH]; [done|]. simpl.
  pose proof (Split_nonempty t a) as Hne.
  destruct (Ascii.eqb c a); destruct (Split t a) as [|w ws]; try done.
  - by rewrite <- IH.
  - rewrite <- IH. by destruct ws.
Qed.

Lemma replaceByte_no_byte a b s :
  a <> b -> ~ Substring (String a EmptyString) (replaceByte a b s).
Proof.
  intros Hab. induction s as [|c t IH]; simpl.
  { apply Substring_byte_nil. }
  rewrite Substring_byte_cons. intros [Hc|Hc]; [|done].
  destruct (Ascii.eqb_spec c a); congruence.
Qed.

Lemma replaceByte_absent a b s :
  ~ Substring (String a EmptyString) s -> replaceByte a b s = s.
Proof.
  induction s as [|c t IH]; [done|]. rewrite Substring_byte_cons.
  intros Hno. simpl. destruct (Ascii.eqb_spec c a) as [->|_]; [tauto|].
  rewrite IH; tauto.
Qed.

(** ** Further properties of the generator *)

Lemma icmp_escape_elem sz icp pr :
  pr ∈ icmpv4Parameters_escape sz icp -> exists raw, pr = canonICMP sz raw.
Proof.
  unfold icmpv4Parameters_escape.
  destruct (scanRegistries_cases (icp_Registries icp) 0)
    as [[-> _]|(pre & r & post & Hregs & Hpre & Hr & _)].
  { simpl. by intros ?%elem_of_nil. }
  fold (icmpv4Parameters_escape sz icp).
  rewrite (icmpv4Parameters_escape_first sz icp pre r post Hregs Hpre Hr).
  change (map (canonICMP sz) (reg_Records r))
    with (canonICMP sz <$> reg_Records r).
  intros (raw & -> & _)%list_elem_of_fmap. by exists raw.
Qed.

Lemma protocol_escape_elem sz pn pr :
  pr ∈ protocolNumbers_escape sz pn -> exists raw, pr = canonProtocol sz raw.
Proof.
  rewrite protocolNumbers_escape_map.
  change (map (canonProtocol sz) (pn_Records pn))
    with (canonProtocol sz <$> pn_Records pn).
  intros (raw & -> & _)%list_elem_of_fmap. by exists raw.
Qed.

Lemma separator_not_in_empty sep :
  sep ∈ separators -> ~ Substring sep EmptyString.
Proof. intros (c & -> & _)%separators_cases. apply Substring_byte_nil. Qed.

(** X1: no canonical identifier that the ICMP canonicalizer returns has a
    plus sign, a hyphen, a slash, a full stop or a space in it. *)
Theorem icmp_identifier_has_no_separator
    (sz : IntSize) (icp : icmpv4Parameters) (pr : canonICMPv4ParamRecord)
    (sep : string) :
  pr ∈ icmpv4Parameters_escape sz icp -> sep ∈ separators ->
  ~ Substring sep (Descr pr).
Proof.
  intros [raw ->]%icmp_escape_elem Hsep. unfold canonICMP.
  destruct (placeholder (rec_Descr raw)); simpl.
  - by apply separator_not_in_empty.
  - by apply icmpReplacer_no_separator.
Qed.

Lemma icmp_identifier_has_no_separator_witness :
  ~ Substring "-"
      (Descr {| OrigDescr := "RFC3692-style Test 1";
                Descr := "RFC3692styleTest1"; Value := 253 |}).
Proof.
  apply (icmp_identifier_has_no_separator Int64
           (icmpDocument "ICMP Type Numbers"
              [ {| rec_Value := "253";
                   rec_Descr := "RFC3692-style Test 1" |} ])).
  - vm_compute. by left.
  - unfold separators. rewrite !elem_of_cons. tauto.
Defined.

(** X2: no canonical name that the protocol canonicalizer returns has a
    plus sign, a hyphen, a slash, a full stop or a space in it, the two
    names of the exceptions included. *)
Theorem protocol_name_has_no_separator
    (sz : IntSize) (pn : protocolNumbers) (pr : canonProtocolRecord)
    (sep : string) :
  pr ∈ protocolNumbers_escape sz pn -> sep ∈ separators ->
  ~ Substring sep (cp_Name pr).
Proof.
  intros [raw ->]%protocol_escape_elem Hsep. unfold canonProtocol. simpl.
  destruct (String.eqb (pr_Name raw) "ISIS over IPv4");
    [|destruct (String.eqb (pr_Name raw) "manet")].
  - apply separators_cases in Hsep as (c & -> & Hc).
    destruct Hc as [Hc|[Hc|[Hc|[Hc|Hc]]]]; injection Hc as ->;
      by apply Contains_false.
  - apply separators_cases in Hsep as (c & -> & Hc).
    destruct Hc as [Hc|[Hc|[Hc|[Hc|Hc]]]]; injection Hc as ->;
      by apply Contains_false.
  - by apply protocolReplacer_no_separator.
Qed.

Lemma protocol_name_has_no_separator_witness :
  ~ Substring "-"
      (cp_Name {| cp_OrigName := "IPv6-in-IP"; cp_Name := "IPv6inIP";
                  cp_Descr := EmptyString; cp_Value := 41 |}).
Proof.
  apply (protocol_name_has_no_separator Int64
           (protocolDocument
              [ {| pr_Value := "41"; pr_Name := "IPv6-in-IP";
                   pr_Descr := EmptyString |} ])).
  - vm_compute. by left.
  - unfold separators. rewrite !elem_of_cons. tauto.
Defined.

(** X3: a protocol name other than [manet] whose trimmed text has none of
    the five separators in it is its own canonical name, once trimmed. *)
Theorem protocol_clean_name_unchanged
    (sz : IntSize) (pn : protocolNumbers) (i : nat) (pr : protocolRecord) :
  pn_Records pn !! i = Some pr ->
  pr_Name pr <> "manet" ->
  (forall sep, sep ∈ separators -> ~ Substring sep (TrimSpace (pr_Name pr))) ->
  cp_Name <$> protocolNumbers_escape sz pn !! i
  = Some (TrimSpace (pr_Name pr)).
Proof.
  intros Hi Hmanet Hclean.
  rewrite (protocol_escape_lookup sz pn i pr Hi). simpl.
  destruct (String.eqb_spec (pr_Name pr) "ISIS over IPv4") as [He|_].
  { exfalso. apply (Hclean " ").
    - unfold separators. rewrite !elem_of_cons. tauto.
    - rewrite He. by exists "ISIS", "over IPv4". }
  destruct (String.eqb_spec (pr_Name pr) "manet") as [He|_]; [done|].
  by rewrite protocolReplacer_clean.
Qed.

Lemma protocol_clean_name_unchanged_witness :
  cp_Name <$> protocolNumbers_escape Int64
                (protocolDocument
                   [ {| pr_Value := "17"; pr_Name := " UDP";
                        pr_Descr := "User Datagram" |} ])
              !! 0%nat
  = Some "UDP".
Proof.
  apply (protocol_clean_name_unchanged Int64
           (protocolDocument
              [ {| pr_Value := "17"; pr_Name := " UDP";
                   pr_Descr := "User Datagram" |} ])
           0%nat
           {| pr_Value := "17"; pr_Name := " UDP";
              pr_Descr := "User Datagram" |}).
  - reflexivity.
  - discriminate.
  - intros sep (c & -> & Hc)%separators_cases.
    destruct Hc as [Hc|[Hc|[Hc|[Hc|Hc]]]]; injection Hc as ->;
      by apply Contains_false.
Defined.

(** X4: the rewriting of protocol names is idempotent: a canonical name
    goes through the protocol replacer unchanged.  The ICMP replacer is
    not idempotent: from [IMessageCMP] it makes [ICMP], which it removes
    when it is applied again. *)
Theorem protocolReplacer_idempotent :
  (forall s,
      Replace protocolReplacer (Replace protocolReplacer s)
      = Replace protocolReplacer s)
  /\ Replace icmpReplacer (Replace icmpReplacer "IMessageCMP")
     <> Replace icmpReplacer "IMessageCMP".
Proof.
  split; [|by vm_compute].
  intros s. apply protocolReplacer_clean.
  intros sep Hsep. by apply protocolReplacer_no_separator.
Qed.

(** X5: the index that the scan of the sub-registries returns is -1, when
    no title contains [Type] or [type], or the position of the first
    sub-registry whose title does, so that the slice is never indexed out
    of range; the canonicalizer returns no record in the first case and
    one canonical record for each record of that sub-registry, in their
    order, in the second. *)
Theorem escape_scan_in_range (sz : IntSize) (icp : icmpv4Parameters) :
  (Forall NoTypeTitle (icp_Registries icp)
   /\ scanRegistries (icp_Registries icp) 0 = -1
   /\ icmpv4Parameters_escape sz icp = [])
  \/ (exists pre r,
        FirstTypeRegistry icp pre r
        /\ scanRegistries (icp_Registries icp) 0 = Z.of_nat (length pre)
        /\ icp_Registries icp !! length pre = Some r
        /\ icmpv4Parameters_escape sz icp
           = map (canonICMP sz) (reg_Records r)).
Proof.
  destruct (scanRegistries_cases (icp_Registries icp) 0)
    as [[Hscan Hall]|(pre & r & post & Hregs & Hpre & Hr & Hscan)].
  - left. split; [|split; [done|by apply icmpv4Parameters_escape_none]].
    eapply Forall_impl; [done|]. intros r Hr. by apply typeTitle_false.
  - right. exists pre, r. split; [|split; [|split]].
    + split; [by exists post|]. split; [|by apply typeTitle_spec].
      eapply Forall_impl; [done|]. intros r' Hr'. by apply typeTitle_false.
    + rewrite Hscan. lia.
    + rewrite Hregs. by apply list_lookup_middle.
    + by apply (icmpv4Parameters_escape_first sz icp pre r post).
Qed.

(** X6: both parse steps only append to the writer: what they return for a
    writer that holds [w] is [w] followed by what they write to an empty
    writer, with the same error; on a decoding error nothing is written. *)
Theorem parse_appends
    (sz : IntSize) (mapToLower quoteRunes : string -> string)
    (xmlDecodeICMP : string -> result icmpv4Parameters)
    (xmlDecodeProtocol : string -> result protocolNumbers)
    (w r : string) :
  let icmp := parseICMPv4Parameters sz mapToLower quoteRunes xmlDecodeICMP in
  let protocol := parseProtocolNumbers sz xmlDecodeProtocol in
  icmp w r = (w +:+ fst (icmp EmptyString r), snd (icmp EmptyString r))
  /\ protocol w r
     = (w +:+ fst (protocol EmptyString r), snd (protocol EmptyString r))
  /\ (snd (icmp w r) <> None -> fst (icmp w r) = w)
  /\ (snd (protocol w r) <> None -> fst (protocol w r) = w).
Proof.
  intros icmp protocol. subst icmp protocol.
  split; [|split; [|split]].
  - destruct (xmlDecodeICMP r) as [icp|err] eqn:Hdec.
    + by rewrite !(parseICMPv4Parameters_ok _ _ _ _ _ _ icp Hdec).
    + rewrite !(parseICMPv4Parameters_err _ _ _ _ _ _ err Hdec). simpl.
      by rewrite append_nil_r.
  - destruct (xmlDecodeProtocol r) as [pn|err] eqn:Hdec.
    + by rewrite !(parseProtocolNumbers_ok _ _ _ _ pn Hdec).
    + rewrite !(parseProtocolNumbers_err _ _ _ _ err Hdec). simpl.
      by rewrite append_nil_r.
  - destruct (xmlDecodeICMP r) as [icp|err] eqn:Hdec.
    + by rewrite (parseICMPv4Parameters_ok _ _ _ _ _ _ icp Hdec).
    + by rewrite (parseICMPv4Parameters_err _ _ _ _ _ _ err Hdec).
  - destruct (xmlDecodeProtocol r) as [pn|err] eqn:Hdec.
    + by rewrite (parseProtocolNumbers_ok _ _ _ _ pn Hdec).
    + by rewrite (parseProtocolNumbers_err _ _ _ _ err Hdec).
Qed.

Lemma parse_appends_witness :
  let decodeICMP (_ : string) : result icmpv4Parameters :=
    Err "EOF" in
  let decodeProtocol (_ : string) :=
    Ok (protocolDocument
          [ {| pr_Value := "6"; pr_Name := "TCP";
               pr_Descr := "Transmission Control" |} ]) in
  fst (parseICMPv4Parameters Int64 (fun s => s) (fun s => s) decodeICMP
         "package ipv4" EmptyString)
  = "package ipv4".
Proof.
  intros decodeICMP decodeProtocol.
  apply (proj1 (proj2 (proj2 (parse_appends Int64 (fun s => s) (fun s => s)
                                decodeICMP decodeProtocol
                                "package ipv4" EmptyString)))).
  discriminate.
Defined.

Section Driver.

Context (sz : IntSize) (mapToLower quoteRunes : string -> string).
Context (xmlDecodeICMP : string -> result icmpv4Parameters).
Context (xmlDecodeProtocol : string -> result protocolNumbers).
Context (httpGet : string -> result Response).
Context (formatSource : string -> result string).

Local Abbreviation icmp :=
  (parseICMPv4Parameters sz mapToLower quoteRunes xmlDecodeICMP).
Local Abbreviation protocol := (parseProtocolNumbers sz xmlDecodeProtocol).
Local Abbreviation run :=
  (main sz mapToLower quoteRunes xmlDecodeICMP xmlDecodeProtocol
     httpGet formatSource).

(** One turn of the loop of [main] on a registry that is fetched with
    status 200. *)
Lemma fetchAll_step url parse rest bb resp :
  httpGet url = Ok resp -> StatusCode resp = StatusOK ->
  fetchAll httpGet ((url, parse) :: rest) bb
  = match parse bb (Body resp) with
    | (_, Some err) => inr (exit1 err)
    | (bb', None) =>
        fetchAll httpGet rest (bb' +:+ nl)
    end.
Proof.
  intros Hget Hstatus. simpl. rewrite Hget, Hstatus. reflexivity.
Qed.

Lemma fetchAll_status url parse rest bb resp :
  httpGet url = Ok resp -> StatusCode resp <> StatusOK ->
  fetchAll httpGet ((url, parse) :: rest) bb
  = inr (exit1 ("got HTTP status code " +:+ itoa (StatusCode resp)
                  +:+ " for " +:+ url)).
Proof.
  intros Hget Hstatus. simpl. rewrite Hget.
  by destruct (Z.eqb_spec (StatusCode resp) StatusOK).
Qed.

Lemma icmp_written w body :
  snd (icmp w body) = None ->
  icmp w body = (w +:+ fst (icmp EmptyString body), None).
Proof.
  destruct (xmlDecodeICMP body) as [icp|err] eqn:Hdec.
  - by rewrite !(parseICMPv4Parameters_ok _ _ _ _ _ _ icp Hdec).
  - by rewrite (parseICMPv4Parameters_err _ _ _ _ _ _ err Hdec).
Qed.

Lemma protocol_written w body :
  snd (protocol w body) = None ->
  protocol w body = (w +:+ fst (protocol EmptyString body), None).
Proof.
  destruct (xmlDecodeProtocol body) as [pn|err] eqn:Hdec.
  - by rewrite !(parseProtocolNumbers_ok _ _ _ _ pn Hdec).
  - by rewrite (parseProtocolNumbers_err _ _ _ _ err Hdec).
Qed.

Lemma icmp_failed w body err :
  xmlDecodeICMP body = Err err -> icmp w body = (w, Some err).
Proof. apply parseICMPv4Parameters_err. Qed.

Lemma protocol_failed w body err :
  xmlDecodeProtocol body = Err err -> protocol w body = (w, Some err).
Proof. apply parseProtocolNumbers_err. Qed.

Lemma parse_error_independent_of_writer w body :
  snd (icmp w body) = snd (icmp EmptyString body)
  /\ snd (protocol w body) = snd (protocol EmptyString body).
Proof.
  split.
  - destruct (xmlDecodeICMP body) as [icp|err] eqn:Hdec.
    + by rewrite !(parseICMPv4Parameters_ok _ _ _ _ _ _ icp Hdec).
    + by rewrite !(parseICMPv4Parameters_err _ _ _ _ _ _ err Hdec).
  - destruct (xmlDecodeProtocol body) as [pn|err] eqn:Hdec.
    + by rewrite !(parseProtocolNumbers_ok _ _ _ _ pn Hdec).
    + by rewrite !(parseProtocolNumbers_err _ _ _ _ err Hdec).
Qed.

(** The run when both registries are fetched with status 200 and decoded:
    the text handed to [format.Source] decides. *)
Lemma main_both_written r1 r2 :
  httpGet icmpURL = Ok r1 -> StatusCode r1 = StatusOK ->
  snd (icmp EmptyString (Body r1)) = None ->
  httpGet protocolURL = Ok r2 -> StatusCode r2 = StatusOK ->
  snd (protocol EmptyString (Body r2)) = None ->
  run
  = match formatSource (preamble +:+ fst (icmp EmptyString (Body r1)) +:+ nl
                          +:+ fst (protocol EmptyString (Body r2)) +:+ nl) with
    | Err err => exit1 err
    | Ok b => {| Stdout := b; Stderr := EmptyString; ExitCode := 0 |}
    end.
Proof.
  intros Hg1 Hs1 Hp1 Hg2 Hs2 Hp2. unfold main, registries.
  rewrite (fetchAll_step _ _ _ _ r1 Hg1 Hs1).
  rewrite icmp_written
    by (by rewrite (proj1 (parse_error_independent_of_writer _ _))).
  rewrite (fetchAll_step _ _ _ _ r2 Hg2 Hs2).
  rewrite protocol_written
    by (by rewrite (proj2 (parse_error_independent_of_writer _ _))).
  cbn [fetchAll]. by rewrite !append_assoc.
Qed.

End Driver.

Section DriverProperties.

Context (sz : IntSize) (mapToLower quoteRunes : string -> string).
Context (xmlDecodeICMP : string -> result icmpv4Parameters).
Context (xmlDecodeProtocol : string -> result protocolNumbers).
Context (httpGet : string -> result Response).
Context (formatSource : string -> result string).

Local Abbreviation icmp :=
  (parseICMPv4Parameters sz mapToLower quoteRunes xmlDecodeICMP).
Local Abbreviation protocol := (parseProtocolNumbers sz xmlDecodeProtocol).
Local Abbreviation run :=
  (main sz mapToLower quoteRunes xmlDecodeICMP xmlDecodeProtocol
     httpGet formatSource).

Lemma icmp_decoded_written body icp :
  xmlDecodeICMP body = Ok icp -> snd (icmp EmptyString body) = None.
Proof.
  intros Hdec. by rewrite (parseICMPv4Parameters_ok _ _ _ _ _ _ icp Hdec).
Qed.

Lemma protocol_decoded_written body pn :
  xmlDecodeProtocol body = Ok pn -> snd (protocol EmptyString body) = None.
Proof.
  intros Hdec. by rewrite (parseProtocolNumbers_ok _ _ _ _ pn Hdec).
Qed.

(** X7: a run exits with status 0 or 1.  It exits with status 0 exactly
    when both registries are fetched with status 200 and decoded and the
    generated text formats; its standard output is then the formatted
    text of the fixed header followed by what the two parse steps write,
    ICMP first, each followed by an empty line, and nothing is written to
    the standard error. *)
Theorem main_success :
  let text r1 r2 :=
    preamble +:+ fst (icmp EmptyString (Body r1)) +:+ nl
      +:+ fst (protocol EmptyString (Body r2)) +:+ nl in
  let fetched r1 r2 :=
    httpGet icmpURL = Ok r1 /\ StatusCode r1 = StatusOK /\
    snd (icmp EmptyString (Body r1)) = None /\
    httpGet protocolURL = Ok r2 /\ StatusCode r2 = StatusOK /\
    snd (protocol EmptyString (Body r2)) = None in
  (ExitCode run = 0 \/ ExitCode run = 1)
  /\ (forall r1 r2 b,
         fetched r1 r2 -> formatSource (text r1 r2) = Ok b ->
         run = {| Stdout := b; Stderr := EmptyString; ExitCode := 0 |})
  /\ (ExitCode run = 0 ->
      exists r1 r2 b,
        fetched r1 r2 /\ formatSource (text r1 r2) = Ok b /\
        run = {| Stdout := b; Stderr := EmptyString; ExitCode := 0 |}).
Proof.
  intros text fetched. split; [|split].
  - destruct (main_outcome sz mapToLower quoteRunes xmlDecodeICMP
                xmlDecodeProtocol httpGet formatSource)
      as [[report ->]|(? & ? & ? & ? & ? & ? & ? & ? & ? & ? & ? & ? & ->)];
      [by right|by left].
  - intros r1 r2 b (Hg1 & Hs1 & Hp1 & Hg2 & Hs2 & Hp2) Hf.
    rewrite (main_both_written _ _ _ _ _ _ _ r1 r2 Hg1 Hs1 Hp1 Hg2 Hs2 Hp2).
    subst text. simpl in Hf. by rewrite Hf.
  - intros Hexit.
    destruct (main_outcome sz mapToLower quoteRunes xmlDecodeICMP
                xmlDecodeProtocol httpGet formatSource)
      as [[report Hrun]|(r1 & icp & r2 & pn & b & Hg1 & Hs1 & Hd1 & Hg2 & Hs2
                          & Hd2 & Hf & Hrun)].
    { rewrite Hrun in Hexit. discriminate. }
    exists r1, r2, b. split; [|split; [|done]].
    + repeat split; try done.
      * by apply (icmp_decoded_written _ icp).
      * by apply (protocol_decoded_written _ pn).
    + subst text. simpl.
      rewrite (parseICMPv4Parameters_ok _ _ _ _ _ _ icp Hd1).
      rewrite (parseProtocolNumbers_ok _ _ _ _ pn Hd2). exact Hf.
Qed.

(** X8: a run reports the first error in the order of its stages and
    stops there: the fetch, the status and the decoding of the ICMP
    registry, then those of the protocol registry, then the formatting.
    The report is the text of the error, or the line that names the
    status and the address, and the later stages play no part in it. *)
Theorem main_reports_first_error :
  let icmpOK r1 :=
    httpGet icmpURL = Ok r1 /\ StatusCode r1 = StatusOK /\
    exists icp, xmlDecodeICMP (Body r1) = Ok icp in
  let protocolOK r2 :=
    httpGet protocolURL = Ok r2 /\ StatusCode r2 = StatusOK /\
    exists pn, xmlDecodeProtocol (Body r2) = Ok pn in
  let badStatus resp url :=
    exit1 ("got HTTP status code " +:+ itoa (StatusCode resp)
             +:+ " for " +:+ url) in
  (forall err, httpGet icmpURL = Err err -> run = exit1 err)
  /\ (forall r1,
         httpGet icmpURL = Ok r1 -> StatusCode r1 <> StatusOK ->
         run = badStatus r1 icmpURL)
  /\ (forall r1 err,
         httpGet icmpURL = Ok r1 -> StatusCode r1 = StatusOK ->
         xmlDecodeICMP (Body r1) = Err err -> run = exit1 err)
  /\ (forall r1 err,
         icmpOK r1 -> httpGet protocolURL = Err err -> run = exit1 err)
  /\ (forall r1 r2,
         icmpOK r1 -> httpGet protocolURL = Ok r2 ->
         StatusCode r2 <> StatusOK -> run = badStatus r2 protocolURL)
  /\ (forall r1 r2 err,
         icmpOK r1 -> httpGet protocolURL = Ok r2 ->
         StatusCode r2 = StatusOK ->
         xmlDecodeProtocol (Body r2) = Err err -> run = exit1 err)
  /\ (forall r1 r2 err,
         icmpOK r1 -> protocolOK r2 ->
         formatSource
           (preamble +:+ fst (icmp EmptyString (Body r1)) +:+ nl
              +:+ fst (protocol EmptyString (Body r2)) +:+ nl) = Err err ->
         run = exit1 err).
Proof.
  intros icmpOK protocolOK badStatus.
  assert (forall r1, icmpOK r1 ->
            fetchAll httpGet
              (registries sz mapToLower quoteRunes xmlDecodeICMP
                 xmlDecodeProtocol) preamble
            = fetchAll httpGet [(protocolURL, protocol)]
                ((preamble +:+ fst (icmp EmptyString (Body r1))) +:+ nl))
    as Hfirst.
  { intros r1 (Hg1 & Hs1 & icp & Hd1). unfold registries.
    rewrite (fetchAll_step _ _ _ _ _ r1 Hg1 Hs1).
    rewrite (icmp_written sz mapToLower quoteRunes xmlDecodeICMP); [done|].
    rewrite (proj1 (parse_error_independent_of_writer sz mapToLower
                      quoteRunes xmlDecodeICMP xmlDecodeProtocol _ _)).
    by apply (icmp_decoded_written _ icp). }
  repeat split.
  - intros err Hg1. unfold main, registries. simpl. by rewrite Hg1.
  - intros r1 Hg1 Hs1. unfold main, registries.
    by rewrite (fetchAll_status _ _ _ _ _ r1 Hg1 Hs1).
  - intros r1 err Hg1 Hs1 Hd1. unfold main, registries.
    rewrite (fetchAll_step _ _ _ _ _ r1 Hg1 Hs1).
    by rewrite (icmp_failed _ _ _ _ _ _ err Hd1).
  - intros r1 err H1 Hg2. unfold main. rewrite (Hfirst r1 H1). simpl.
    by rewrite Hg2.
  - intros r1 r2 H1 Hg2 Hs2. unfold main. rewrite (Hfirst r1 H1).
    by rewrite (fetchAll_status _ _ _ _ _ r2 Hg2 Hs2).
  - intros r1 r2 err H1 Hg2 Hs2 Hd2. unfold main. rewrite (Hfirst r1 H1).
    rewrite (fetchAll_step _ _ _ _ _ r2 Hg2 Hs2).
    by rewrite (protocol_failed _ _ _ _ err Hd2).
  - intros r1 r2 err (Hg1 & Hs1 & icp & Hd1) (Hg2 & Hs2 & pn & Hd2) Hf.
    rewrite (main_both_written _ _ _ _ _ _ _ r1 r2 Hg1 Hs1
               (icmp_decoded_written _ icp Hd1) Hg2 Hs2
               (protocol_decoded_written _ pn Hd2)).
    by rewrite Hf.
Qed.

End DriverProperties.

Lemma main_success_witness :
  let decodeICMP (_ : string) :=
    Ok (icmpDocument "ICMP Type Numbers"
          [ {| rec_Value := "8"; rec_Descr := "Echo" |} ]) in
  let decodeProtocol (_ : string) :=
    Ok (protocolDocument
          [ {| pr_Value := "6"; pr_Name := "TCP";
               pr_Descr := "Transmission Control" |} ]) in
  let get (_ : string) := Ok {| StatusCode := 200; Body := EmptyString |} in
  let format (src : string) : result string := Ok ("// formatted" +:+ nl) in
  main Int64 (fun s => s) (fun s => s) decodeICMP decodeProtocol get format
  = {| Stdout := "// formatted" +:+ nl; Stderr := EmptyString;
       ExitCode := 0 |}.
Proof.
  intros decodeICMP decodeProtocol get format.
  apply (proj1 (proj2 (main_success Int64 (fun s => s) (fun s => s)
                         decodeICMP decodeProtocol get format))
           {| StatusCode := 200; Body := EmptyString |}
           {| StatusCode := 200; Body := EmptyString |}).
  - repeat split.
  - reflexivity.
Defined.

Lemma main_reports_first_error_witness :
  let decodeICMP (_ : string) : result icmpv4Parameters :=
    Err "expected element type <registry> but have <html>" in
  let decodeProtocol (_ : string) : result protocolNumbers :=
    Err "unexpected EOF" in
  let get (url : string) :=
    if String.eqb url icmpURL
    then Ok {| StatusCode := 200; Body := "<html>" |}
    else Ok {| StatusCode := 404; Body := EmptyString |} in
  Stderr (main Int64 (fun s => s) (fun s => s) decodeICMP decodeProtocol get
            (fun src => Ok src))
  = "expected element type <registry> but have <html>" +:+ nl.
Proof.
  intros decodeICMP decodeProtocol get.
  exact (f_equal Stderr
           (proj1 (proj2 (proj2 (main_reports_first_error Int64 (fun s => s)
                                   (fun s => s) decodeICMP decodeProtocol get
                                   (fun src => Ok src))))
              {| StatusCode := 200; Body := "<html>" |}
              "expected element type <registry> but have <html>"
              eq_refl eq_refl eq_refl)).
Defined.

(** X9: the original description of an ICMP record that passes the
    placeholder filter is the raw description with every line feed turned
    into a space, trimmed; a description of one line is only trimmed. *)
Theorem icmp_description_joined
    (sz : IntSize) (icp : icmpv4Parameters) (pre : list icmpv4Registry)
    (r : icmpv4Registry) (i : nat) (pr : icmpv4Record) :
  FirstTypeRegistry icp pre r -> reg_Records r !! i = Some pr ->
  ~ Placeholder (rec_Descr pr) ->
  let orig := OrigDescr <$> icmpv4Parameters_escape sz icp !! i in
  orig = Some (TrimSpace (replaceByte LF " " (rec_Descr pr)))
  /\ (~ Substring nl (rec_Descr pr) -> orig = Some (TrimSpace (rec_Descr pr))).
Proof.
  intros Hr Hi Hp orig.
  assert (orig = Some (TrimSpace (replaceByte LF " " (rec_Descr pr)))) as Ho.
  { subst orig. rewrite (escape_lookup sz icp pre r i pr Hr Hi).
    rewrite (canonICMP_kept sz pr Hp). simpl.
    by rewrite joinLines_Join, Join_Split by apply Split_nonempty. }
  split; [done|]. intros Hline. by rewrite Ho, replaceByte_absent.
Qed.

Lemma icmp_description_joined_witness :
  OrigDescr <$> icmpv4Parameters_escape Int64
                  (icmpDocument "ICMP Type Numbers"
                     [ {| rec_Value := "3";
                          rec_Descr := " Destination" +:+ nl
                                         +:+ "Unreachable " |} ])
                !! 0%nat
  = Some "Destination Unreachable".
Proof.
  refine (proj1 (icmp_description_joined Int64
                   (icmpDocument "ICMP Type Numbers"
                      [ {| rec_Value := "3";
                           rec_Descr := " Destination" +:+ nl
                                          +:+ "Unreachable " |} ])
                   []
                   {| reg_Title := "ICMP Type Numbers";
                      reg_Records :=
                        [ {| rec_Value := "3";
                             rec_Descr := " Destination" +:+ nl
                                            +:+ "Unreachable " |} ] |}
                   0%nat
                   {| rec_Value := "3";
                      rec_Descr := " Destination" +:+ nl
                                     +:+ "Unreachable " |} _ _ _)).
  - split; [by exists []|]. split; [constructor|].
    left. by exists "ICMP ", " Numbers".
  - reflexivity.
  - intros Hp%placeholder_spec. vm_compute in Hp. discriminate.
Defined.

(** X10: the description of a protocol record whose raw description has
    no line feed is the raw description, trimmed. *)
Theorem protocol_description_single_line
    (sz : IntSize) (pn : protocolNumbers) (i : nat) (pr : protocolRecord) :
  pn_Records pn !! i = Some pr ->
  ~ Substring nl (pr_Descr pr) ->
  cp_Descr <$> protocolNumbers_escape sz pn !! i
  = Some (TrimSpace (pr_Descr pr)).
Proof.
  intros Hi Hline. rewrite (protocol_escape_lookup sz pn i pr Hi). simpl.
  by rewrite Split_absent.
Qed.

Lemma protocol_description_single_line_witness :
  cp_Descr <$> protocolNumbers_escape Int64
                 (protocolDocument
                    [ {| pr_Value := "6"; pr_Name := "TCP";
                         pr_Descr := " Transmission Control " |} ])
               !! 0%nat
  = Some "Transmission Control".
Proof.
  refine (protocol_description_single_line Int64
            (protocolDocument
               [ {| pr_Value := "6"; pr_Name := "TCP";
                    pr_Descr := " Transmission Control " |} ])
            0%nat
            {| pr_Value := "6"; pr_Name := "TCP";
               pr_Descr := " Transmission Control " |} eq_refl _).
  by apply Contains_false.
Defined.

(** A byte that is neither in the text nor in a replacement text is not in
    the result of the pass. *)
Lemma OnePass_keeps_absent oldnew c s out :
  ~ Substring (String c EmptyString) s ->
  Forall (fun p => ~ Substring (String c EmptyString) (snd p)) oldnew ->
  OnePass oldnew s out -> ~ Substring (String c EmptyString) out.
Proof.
  intros Hs Hnew Hpass. revert Hs.
  induction Hpass as [|old new rest out Hfirst _ IH|d rest out Hno _ IH].
  - done.
  - rewrite !Substring_byte_app. intros Hs [Hc|Hc]; [|apply IH; tauto].
    apply FirstMatch_In in Hfirst. rewrite Forall_forall in Hnew.
    by apply (Hnew _ Hfirst).
  - rewrite !Substring_byte_cons. intros Hs [Hc|Hc]; [tauto|].
    apply IH; tauto.
Qed.

Lemma joined_no_line_feed ss :
  ss <> [] -> Forall (fun x => ~ Substring nl x) ss ->
  ~ Substring nl (joinLines ss).
Proof.
  intros Hne Hss. rewrite joinLines_Join by done.
  apply (Join_no_byte LF ss " " Hss). by apply Contains_false.
Qed.

Lemma trimmed_lines_no_line_feed s :
  Forall (fun x => ~ Substring nl x) (map TrimSpace (Split s LF)).
Proof.
  pose proof (Split_no_sep s LF) as Hno.
  induction Hno as [|x ss Hx _ IH]; simpl; constructor; [|done].
  intros Hsub. by apply Hx, TrimSpace_Substring.
Qed.

Lemma string_of_uint_no_line_feed d :
  ~ Substring nl (NilEmpty.string_of_uint d).
Proof.
  unfold nl. induction d; simpl;
    [apply Substring_byte_nil|rewrite Substring_byte_cons; intros [H|H];
                               [by vm_compute in H|done]..].
Qed.

(** The decimal text of an integer has no line feed. *)
Lemma itoa_no_line_feed z : ~ Substring nl (itoa z).
Proof.
  unfold itoa, NilZero.string_of_int, NilZero.string_of_uint.
  destruct (Z.to_int z) as [d|d].
  - destruct d; try apply (string_of_uint_no_line_feed (_ _)).
    by apply Contains_false.
  - unfold nl. rewrite Substring_byte_cons. intros [H|H]; [by vm_compute in H|].
    revert H. destruct d; try apply (string_of_uint_no_line_feed (_ _)).
    by apply Contains_false.
Qed.

Lemma protocol_name_no_line_feed sz raw :
  ~ Substring nl (pr_Name raw) ->
  ~ Substring nl (cp_Name (canonProtocol sz raw)).
Proof.
  intros Hname. unfold canonProtocol. simpl.
  destruct (String.eqb (pr_Name raw) "ISIS over IPv4");
    [by apply Contains_false|].
  destruct (String.eqb (pr_Name raw) "manet"); [by apply Contains_false|].
  apply (OnePass_keeps_absent protocolReplacer LF (TrimSpace (pr_Name raw))).
  - intros Hsub. by apply Hname, TrimSpace_Substring.
  - repeat constructor; by apply Contains_false.
  - apply Replace_OnePass, protocolReplacer_nonempty.
Qed.

(** X11: the descriptions that the canonicalizers return are on one line:
    for an ICMP record neither the original description nor the canonical
    identifier has a line feed in it, and for a protocol record the
    description has none.  So what the emitter writes for an ICMP record
    that it prints is one line, and what it writes for a protocol record
    that it prints is one line when the raw name has no line feed.  A raw
    name with a line feed is not repaired: the name [A], line feed, [B]
    with an empty description is printed over three lines. *)
Theorem descriptions_on_one_line (sz : IntSize) :
  (forall icp pr,
      pr ∈ icmpv4Parameters_escape sz icp ->
      ~ Substring nl (OrigDescr pr) /\ ~ Substring nl (Descr pr)
      /\ (Descr pr <> EmptyString ->
          OneLine (writeICMPConst EmptyString pr)))
  /\ (forall pn pr,
         pr ∈ protocolNumbers_escape sz pn ->
         ~ Substring nl (cp_Descr pr)
         /\ (cp_Name pr <> EmptyString -> ~ Substring nl (cp_OrigName pr) ->
             OneLine (writeProtocolConst EmptyString pr)))
  /\ foldl writeProtocolConst EmptyString
       (protocolNumbers_escape sz
          (protocolDocument
             [ {| pr_Value := "7"; pr_Name := "A" +:+ nl +:+ "B";
                  pr_Descr := EmptyString |} ]))
     = "ianaProtocolA" +:+ nl +:+ "B = 7// A" +:+ nl +:+ "B" +:+ nl.
Proof.
  split; [|split].
  - intros icp pr Hpr.
    assert (~ Substring nl (OrigDescr pr) /\ ~ Substring nl (Descr pr))
      as [Horig Hdescr].
    { apply icmp_escape_elem in Hpr as [raw ->]. unfold canonICMP.
      destruct (placeholder (rec_Descr raw)); simpl.
      { split; apply Substring_byte_nil. }
      assert (~ Substring nl
                (TrimSpace (joinLines (Split (rec_Descr raw) LF)))) as Horig.
      { intros Hsub%TrimSpace_Substring. revert Hsub.
        apply joined_no_line_feed; [apply Split_nonempty|apply Split_no_sep]. }
      split; [done|].
      apply (OnePass_keeps_absent icmpReplacer LF _ _ Horig).
      + repeat constructor; by apply Contains_false.
      + apply Replace_OnePass, icmpReplacer_nonempty. }
    split; [done|]. split; [done|]. intros Hne.
    unfold writeICMPConst. destruct (String.eqb_spec (Descr pr) "");
      [done|].
    exists ("ICMPType" +:+ Descr pr +:+ " ICMPType = " +:+ itoa (Value pr)
              +:+ "// " +:+ OrigDescr pr).
    split; [by rewrite !append_assoc|].
    pose proof (itoa_no_line_feed (Value pr)) as Hitoa.
    assert (~ Substring nl "ICMPType" /\ ~ Substring nl " ICMPType = "
            /\ ~ Substring nl "// ") as (H1 & H2 & H3)
      by (repeat split; by apply Contains_false).
    unfold nl in *. rewrite !Substring_byte_app. tauto.
  - intros pn pr Hpr. apply protocol_escape_elem in Hpr as [raw ->].
    assert (~ Substring nl (cp_Descr (canonProtocol sz raw))) as Hdescr.
    { unfold canonProtocol. simpl.
      apply joined_no_line_feed; [|apply trimmed_lines_no_line_feed].
      pose proof (Split_nonempty (pr_Descr raw) LF).
      by destruct (Split _ _). }
    split; [done|]. intros Hne Hraw.
    pose proof (protocol_name_no_line_feed sz raw Hraw) as Hname.
    unfold writeProtocolConst.
    destruct (String.eqb_spec (cp_Name (canonProtocol sz raw)) "");
      [done|].
    set (pr := canonProtocol sz raw) in *.
    exists ("ianaProtocol" +:+ cp_Name pr +:+ " = " +:+ itoa (cp_Value pr)
              +:+ "// "
              +:+ (if String.eqb (cp_Descr pr) "" then cp_OrigName pr
                   else cp_Descr pr)).
    split; [by rewrite !append_assoc|].
    pose proof (itoa_no_line_feed (cp_Value pr)) as Hitoa.
    assert (~ Substring nl "ianaProtocol" /\ ~ Substring nl " = "
            /\ ~ Substring nl "// ") as (H1 & H2 & H3)
      by (repeat split; by apply Contains_false).
    assert (~ Substring nl (if String.eqb (cp_Descr pr) ""
                            then cp_OrigName pr else cp_Descr pr)) as Hs
      by (by destruct (String.eqb (cp_Descr pr) "")).
    unfold nl in *. rewrite !Substring_byte_app. tauto.
  - by destruct sz.
Qed.

Lemma descriptions_on_one_line_witness :
  OneLine
    (writeICMPConst EmptyString
       {| OrigDescr := "Destination Unreachable";
          Descr := "DestinationUnreachable"; Value := 3 |}).
Proof.
  refine (proj2 (proj2 (proj1 (descriptions_on_one_line Int64)
                          (icmpDocument "ICMP Type Numbers"
                             [ {| rec_Value := "3";
                                  rec_Descr := "Destination" +:+ nl
                                                 +:+ "Unreachable" |} ])
                          _ _)) _).
  - vm_compute. by left.
  - discriminate.
Defined.

Lemma icmpReplacer_shortens :
  Forall (fun p => (String.length (snd p) <= String.length (fst p))%nat)
    icmpReplacer.
Proof. repeat constructor; simpl; lia. Qed.

Lemma protocolReplacer_shortens :
  Forall (fun p => (String.length (snd p) <= String.length (fst p))%nat)
    protocolReplacer.
Proof. repeat constructor; simpl; lia. Qed.

(** X12: canonicalizing never lengthens: the canonical identifier of an
    ICMP record is not longer than its original description, and the
    canonical name of a protocol record is not longer than its raw name. *)
Theorem identifier_not_longer (sz : IntSize) :
  (forall icp pr,
      pr ∈ icmpv4Parameters_escape sz icp ->
      (String.length (Descr pr) <= String.length (OrigDescr pr))%nat)
  /\ (forall pn pr,
         pr ∈ protocolNumbers_escape sz pn ->
         (String.length (cp_Name pr) <= String.length (cp_OrigName pr))%nat).
Proof.
  split.
  - intros icp pr [raw ->]%icmp_escape_elem. unfold canonICMP.
    destruct (placeholder (rec_Descr raw)); simpl; [done|].
    apply (OnePass_length icmpReplacer _ _ icmpReplacer_shortens).
    apply Replace_OnePass, icmpReplacer_nonempty.
  - intros pn pr [raw ->]%protocol_escape_elem. unfold canonProtocol. simpl.
    destruct (String.eqb_spec (pr_Name raw) "ISIS over IPv4") as [->|_];
      [simpl; lia|].
    destruct (String.eqb_spec (pr_Name raw) "manet") as [->|_]; [simpl; lia|].
    pose proof (TrimSpace_length (pr_Name raw)) as Htrim.
    pose proof (OnePass_length protocolReplacer _ _ protocolReplacer_shortens
                  (Replace_OnePass protocolReplacer (TrimSpace (pr_Name raw))
                     protocolReplacer_nonempty)) as Hpass.
    lia.
Qed.

Lemma identifier_not_longer_witness :
  (String.length
     (cp_Name {| cp_OrigName := " IPv6-in-IP "; cp_Name := "IPv6inIP";
                 cp_Descr := EmptyString; cp_Value := 41 |})
   <= String.length " IPv6-in-IP ")%nat.
Proof.
  refine (proj2 (identifier_not_longer Int64)
            (protocolDocument
               [ {| pr_Value := "41"; pr_Name := " IPv6-in-IP ";
                    pr_Descr := EmptyString |} ])
            _ _).
  vm_compute. by left.
Defined.
